(** * Order-processing pipeline: intake and stream-processor handlers

    A shallow embedding of [lambdas/create_order.py] and
    [lambdas/process_order.py].  Python values are an untyped tree
    ([pyval]); the handlers run in a small state-and-exception monad over a
    [World] that holds the orders table, the log of calls made to the
    storage and notification services, the failures the environment is
    going to inject, and the clock. *)

From stdpp Require Import base option list strings gmap fin_maps pretty.
From Stdlib Require Import ZArith.

Open Scope string_scope.
Open Scope Z_scope.
Open Scope list_scope.

(** ** Python values *)

(** The JSON-shaped values the handlers receive and build.  A dict is kept as
    its items in insertion order (keys are strings, as in JSON).  Numbers
    are integers: the handlers only ask of a number whether it is truthy and
    whether it is a string. *)
#[warnings="-register-all"]
Inductive pyval : Type :=
  | PNone
  | PBool (b : bool)
  | PInt (z : Z)
  | PStr (s : string)
  | PList (l : list pyval)
  | PDict (kvs : list (string * pyval)).

(** Exceptions that can travel through the handlers.  All of them are
    subclasses of Python's [Exception]. *)
Inductive exn : Type :=
  | ClientError (code : string)      (* botocore ClientError, with response["Error"]["Code"] *)
  | BotoCoreError (name : string)    (* any other exception of the AWS client *)
  | JSONDecodeError
  | AttributeError
  | TypeError.

Inductive result (A : Type) : Type :=
  | Ret (a : A)
  | Raise (e : exn).
Arguments Ret {A} a.
Arguments Raise {A} e.

Definition ConditionalCheckFailed : string := "ConditionalCheckFailedException".
Definition ValidationException : string := "ValidationException".

(** [d[k]] on the items of a dict: the first item with that key. *)
Fixpoint dict_get (k : string) (kvs : list (string * pyval)) : option pyval :=
  match kvs with
  | [] => None
  | (k', v) :: rest => if String.eqb k k' then Some v else dict_get k rest
  end.

(** [bool(v)]: None, False, 0, the empty string, list and dict are falsy. *)
Definition truthy (v : pyval) : bool :=
  match v with
  | PNone => false
  | PBool b => b
  | PInt z => negb (z =? 0)
  | PStr s => negb (String.eqb s "")
  | PList l => match l with [] => false | _ => true end
  | PDict kvs => match kvs with [] => false | _ => true end
  end.

(** [isinstance(v, str)] *)
Definition is_str (v : pyval) : bool :=
  match v with PStr _ => true | _ => false end.

(** [v == s] for a string literal [s]. *)
Definition eq_str (v : pyval) (s : string) : bool :=
  match v with PStr s' => String.eqb s' s | _ => false end.

(** The characters of a string, as one-character strings. *)
Fixpoint chars (s : string) : list pyval :=
  match s with
  | EmptyString => []
  | String c s' => PStr (String c EmptyString) :: chars s'
  end.

(** ** The world outside the handlers *)

(** A failure injected by the environment into one service call. *)
Inductive fault : Type :=
  | ServiceFault (code : string)     (* the service answered with an error code *)
  | TransportFault (name : string).  (* the call itself failed (timeout, endpoint, ...) *)

Definition exn_of_fault (f : fault) : exn :=
  match f with
  | ServiceFault code => ClientError code
  | TransportFault name => BotoCoreError name
  end.

(** A failure other than the conditional-check failure. *)
Definition unexpected (f : fault) : Prop := f ≠ ServiceFault ConditionalCheckFailed.

Inductive api_call : Type :=
  | PutItem (item : list (string * pyval))
  | UpdateItem (key : pyval) (processed_at : string)
  | Publish (topic message subject : string).

Inductive outcome : Type :=
  | Done
  | Failed (e : exn).

(** - [table]: the orders table, one item per [orderId] (its partition key,
      of type string); an item maps attribute names to values;
    - [trace]: every call made to the table or the topic, oldest first, with
      what came of it;
    - [faults]: what the environment does to the coming service calls, one
      entry per call ([None], or an exhausted list: the service answers as
      its semantics below says);
    - [ticks]: how many times the clock has been read. *)
Record World : Type := mkWorld {
  table : gmap string (gmap string pyval);
  trace : list (api_call * outcome);
  faults : list (option fault);
  ticks : nat
}.

Definition M (A : Type) : Type := World → result A * World.

#[global] Instance M_ret : MRet M := λ A a w, (Ret a, w).
#[global] Instance M_bind : MBind M := λ A B f m w,
  match m w with
  | (Ret a, w') => f a w'
  | (Raise e, w') => (Raise e, w')
  end.

Definition raise {A : Type} (e : exn) : M A := λ w, (Raise e, w).

(** [try: m  except Exception as e: h e] *)
Definition try_except {A : Type} (m : M A) (h : exn → M A) : M A := λ w,
  match m w with
  | (Ret a, w') => (Ret a, w')
  | (Raise e, w') => h e w'
  end.

(** [for x in xs: acc = body acc x]; an exception leaving the body leaves the
    loop. *)
Fixpoint for_each {A S : Type} (xs : list A) (acc : S) (body : S → A → M S) : M S :=
  match xs with
  | [] => mret acc
  | x :: rest => acc' ← body acc x; for_each rest acc' body
  end.

(** The same computation run [n] times in a row: the results, oldest first. *)
Fixpoint repeat_run {A : Type} (n : nat) (m : M A) : M (list A) :=
  match n with
  | O => mret []
  | S n' => r ← m; rs ← repeat_run n' m; mret (r :: rs)
  end.

(** A result that does not touch the world. *)
Definition lift {A : Type} (r : result A) : M A := λ w, (r, w).

#[global] Instance result_ret : MRet result := λ A a, Ret a.
#[global] Instance result_bind : MBind result := λ A B f r,
  match r with
  | Ret a => f a
  | Raise e => Raise e
  end.

(** [obj.get(k, default)]: only a dict has [get]. *)
Definition get (obj : pyval) (k : string) (dflt : pyval) : result pyval :=
  match obj with
  | PDict kvs => Ret (default dflt (dict_get k kvs))
  | _ => Raise AttributeError
  end.

Definition py_get (obj : pyval) (k : string) (dflt : pyval) : M pyval :=
  lift (get obj k dflt).

(** [for x in v]: a list yields its elements, a dict its keys, a string its
    characters; nothing else is iterable. *)
Definition iter (v : pyval) : result (list pyval) :=
  match v with
  | PList l => Ret l
  | PDict kvs => Ret (map (λ kv, PStr (fst kv)) kvs)
  | PStr s => Ret (chars s)
  | _ => Raise TypeError
  end.

Definition py_iter (v : pyval) : M (list pyval) := lift (iter v).

(** *** Service calls *)

Definition log_call (c : api_call) (o : outcome) (w : World) : World :=
  mkWorld (table w) (trace w ++ [(c, o)])%list (faults w) (ticks w).

Definition set_table (t : gmap string (gmap string pyval)) (w : World) : World :=
  mkWorld t (trace w) (faults w) (ticks w).

(** The world once the environment has had its say on a service call. *)
Definition drop_fault (w : World) : World :=
  mkWorld (table w) (trace w) (tail (faults w)) (ticks w).

(** A service call: it fails as the environment says, and otherwise answers
    by [sem], which gives the new table or the error of the service. *)
Definition service_call (c : api_call)
    (sem : gmap string (gmap string pyval) → gmap string (gmap string pyval) + exn) : M unit :=
  λ w,
    match head (faults w) with
    | Some (Some f) =>
        (Raise (exn_of_fault f), log_call c (Failed (exn_of_fault f)) (drop_fault w))
    | _ =>
        match sem (table w) with
        | inl t' => (Ret (), log_call c Done (set_table t' (drop_fault w)))
        | inr e => (Raise e, log_call c (Failed e) (drop_fault w))
        end
    end.

(** A value usable as the table's partition key: a non-empty string. *)
Definition key_of (v : pyval) : option string :=
  match v with
  | PStr k => if String.eqb k "" then None else Some k
  | _ => None
  end.

(** The item the table keeps for a Python dict. *)
Definition stored (item : list (string * pyval)) : gmap string pyval :=
  list_to_map item.

(** The update of [process_order.py]: status and processedAt set together. *)
Definition processed (processed_at : string) (it : gmap string pyval) : gmap string pyval :=
  <["processedAt" := PStr processed_at]> (<["status" := PStr "PROCESSED"]> it).

(** [table.put_item(Item=item, ConditionExpression="attribute_not_exists(orderId)")]:
    the item is written when the table holds none under its key, and the
    call fails with the conditional-check error when it holds one. *)
Definition put_item (item : list (string * pyval)) : M unit :=
  service_call (PutItem item) (λ t,
    match dict_get "orderId" item ≫= key_of with
    | None => inr (ClientError ValidationException)
    | Some k =>
        match t !! k with
        | Some _ => inr (ClientError ConditionalCheckFailed)
        | None => inl (<[k := stored item]> t)
        end
    end).

(** [table.update_item(Key={"orderId": key},
      UpdateExpression="SET #status = :processed, processedAt = :timestamp",
      ConditionExpression="#status = :new", ...)]
    with [:new = "NEW"], [:processed = "PROCESSED"]: the two attributes are
    set together when the stored item has status NEW; in every other case
    (no item, another status) the call fails with the conditional-check
    error and the table is as it was. *)
Definition update_item (key : pyval) (processed_at : string) : M unit :=
  service_call (UpdateItem key processed_at) (λ t,
    match key_of key with
    | None => inr (ClientError ValidationException)
    | Some k =>
        match t !! k with
        | Some it =>
            if eq_str (default PNone (it !! "status")) "NEW"
            then inl (<[k := processed processed_at it]> t)
            else inr (ClientError ConditionalCheckFailed)
        | None => inr (ClientError ConditionalCheckFailed)
        end
    end).

(** [sns.publish(TopicArn=topic, Message=message, Subject=subject)] *)
Definition publish (topic message subject : string) : M unit :=
  service_call (Publish topic message subject) (λ t, inl t).

(** ** Library functions the handlers call *)

(** The clock and the JSON codec of the Python runtime:
    - [wall_clock n]: what the [n]-th call of [datetime.now(timezone.utc)]
      returns;
    - [isoformat d]: [d.isoformat()];
    - [epoch_after_days d n]: [int((d + timedelta(days=n)).timestamp())];
    - [json_loads s]: [json.loads(s)], [None] when it raises JSONDecodeError;
    - [json_dumps v]: [json.dumps(v)]. *)
Class Runtime : Type := {
  datetime : Type;
  wall_clock : nat → datetime;
  isoformat : datetime → string;
  epoch_after_days : datetime → Z → Z;
  json_loads : string → option pyval;
  json_dumps : pyval → string
}.

(** The world once the clock has been read. *)
Definition tick (w : World) : World :=
  mkWorld (table w) (trace w) (faults w) (S (ticks w)).

(** [datetime.now(timezone.utc)] *)
Definition datetime_now `{Runtime} : M datetime := λ w,
  (Ret (wall_clock (ticks w)), tick w).

(** ** lambdas/create_order.py *)

Module CreateOrder.
Section Handler.
Context `{RT : Runtime}.
(** [int(os.environ.get("TTL_DAYS", "7"))] *)
Variable ttl_days : Z.

Definition response (status : Z) (body : list (string * pyval)) : pyval :=
  PDict [("statusCode", PInt status); ("body", PStr (json_dumps (PDict body)))].

Definition created (order_id : pyval) : pyval :=
  response 201 [("message", PStr "Order created successfully");
                ("orderId", order_id); ("status", PStr "NEW")].

Definition already_exists (order_id : pyval) : pyval :=
  response 200 [("message", PStr "Order already exists"); ("orderId", order_id)].

Definition invalid_order_id : pyval :=
  response 400 [("error", PStr "Missing or invalid orderId (must be a non-empty string)")].

Definition invalid_snack_type : pyval :=
  response 400 [("error", PStr "Missing or invalid snackType (must be a non-empty string)")].

Definition invalid_json : pyval :=
  response 400 [("error", PStr "Invalid JSON in request body")].

Definition internal_error : pyval :=
  response 500 [("error", PStr "Internal server error")].

(** The payload the request carries: the decoded [body] when the event has
    a string under that key, the event itself otherwise. *)
Definition payload (event : pyval) : result pyval :=
  b ← get event "body" PNone;
  match b with
  | PStr s =>
      match json_loads s with
      | Some v => Ret v
      | None => Raise JSONDecodeError
      end
  | _ => Ret event
  end.

(** The record of a new order. *)
Definition order_item (order_id snack_type : pyval) (now : datetime) : list (string * pyval) :=
  let created_at := isoformat now in
  let expires_at := epoch_after_days now ttl_days in
  [("orderId", order_id);
   ("snackType", snack_type);
   ("status", PStr "NEW");
   ("createdAt", PStr created_at);
   ("expiresAt", PInt expires_at)].

Definition handler (event context : pyval) : M pyval :=
  try_except
    (body ← lift (payload event);
     order_id ← py_get body "orderId" PNone;
     snack_type ← py_get body "snackType" PNone;
     if negb (truthy order_id) || negb (is_str order_id) then
       mret invalid_order_id
     else if negb (truthy snack_type) || negb (is_str snack_type) then
       mret invalid_snack_type
     else
       now ← datetime_now;
       let item := order_item order_id snack_type now in
       try_except
         (put_item item;; mret (created order_id))
         (λ e, match e with
               | ClientError code =>
                   if String.eqb code ConditionalCheckFailed
                   then mret (already_exists order_id)
                   else raise e
               | _ => raise e
               end))
    (λ e, match e with
          | JSONDecodeError => mret invalid_json
          | _ => mret internal_error
          end).

End Handler.
End CreateOrder.

(** ** lambdas/process_order.py *)

Module ProcessOrder.
Section Handler.
Context `{RT : Runtime}.
(** [os.environ["TOPIC_ARN"]] *)
Variable topic_arn : string.

(** The inner [try]: the conditional update, then the publish; the
    conditional-check failure is dropped, any other exception goes on. *)
Definition transition (order_id : pyval) (now : datetime) : M unit :=
  let processed_at := isoformat now in
  try_except
    (update_item order_id processed_at;;
     let message := PDict [("orderId", order_id); ("status", PStr "PROCESSED")] in
     publish topic_arn (json_dumps message) "Order Processed")
    (λ e, match e with
          | ClientError code =>
              if String.eqb code ConditionalCheckFailed then mret ()
              else raise e
          | _ => raise e
          end).

(** The body of the outer [try] of one loop turn; [continue] ends it. *)
Definition process_record (record : pyval) : M unit :=
  event_name ← py_get record "eventName" PNone;
  if negb (eq_str event_name "INSERT" || eq_str event_name "MODIFY") then mret ()
  else
    dyn ← py_get record "dynamodb" (PDict []);
    new_image ← py_get dyn "NewImage" PNone;
    if negb (truthy new_image) then mret ()
    else
      order_id_attr ← py_get new_image "orderId" (PDict []);
      order_id ← py_get order_id_attr "S" PNone;
      status_attr ← py_get new_image "status" (PDict []);
      status ← py_get status_attr "S" PNone;
      if negb (truthy order_id) then mret ()
      else if negb (eq_str status "NEW") then mret ()
      else
        now ← datetime_now;
        transition order_id now.

(** [record.get("dynamodb", {}).get("SequenceNumber")] *)
Definition sequence_number_of (record : pyval) : result pyval :=
  dyn ← get record "dynamodb" (PDict []);
  get dyn "SequenceNumber" PNone.

(** What a failed entry adds to the failure list. *)
Definition item_failure (sequence_number : pyval) : pyval :=
  PDict [("itemIdentifier", sequence_number)].

(** One turn of the loop over the records. *)
Definition loop_body (batch_item_failures : list pyval) (record : pyval) : M (list pyval) :=
  sequence_number ← lift (sequence_number_of record);
  try_except
    (process_record record;; mret batch_item_failures)
    (λ e,
       if truthy sequence_number
       then mret (batch_item_failures ++ [item_failure sequence_number])%list
       else mret batch_item_failures).

Definition handler (event context : pyval) : M pyval :=
  records ← py_get event "Records" (PList []);
  records ← py_iter records;
  batch_item_failures ← for_each records [] loop_body;
  mret (PDict [("batchItemFailures", PList batch_item_failures)]).
End Handler.
End ProcessOrder.

(** ** Observations on worlds, requests and feed entries *)

(** No failure is injected into the coming service calls. *)
Definition quiet (w : World) : bool :=
  forallb (λ f, match f with None => true | Some _ => false end) (faults w).

(** No failure is injected into the next service call. *)
Definition calm (w : World) : bool :=
  match head (faults w) with
  | Some (Some _) => false
  | _ => true
  end.

(** The items written by the successful [put_item] calls of a trace. *)
Definition written (tr : list (api_call * outcome)) : list (list (string * pyval)) :=
  omap (λ c, match c with (PutItem item, Done) => Some item | _ => None end) tr.

(** The [publish] calls of a trace, whatever came of them. *)
Definition publish_calls (tr : list (api_call * outcome)) : list (api_call * outcome) :=
  omap (λ c, match fst c with Publish _ _ _ => Some c | _ => None end) tr.

(** A field holding a non-empty string. *)
Definition non_empty_str (v : option pyval) : bool :=
  match v with
  | Some (PStr s) => negb (String.eqb s "")
  | _ => false
  end.

(** [processedAt] is present iff the status is PROCESSED. *)
Definition inv_item (it : gmap string pyval) : Prop :=
  is_Some (it !! "processedAt") ↔ it !! "status" = Some (PStr "PROCESSED").

Definition inv_table (t : gmap string (gmap string pyval)) : Prop :=
  ∀ k it, t !! k = Some it → inv_item it.

(** A computation that keeps a property of the table, however it ends. *)
Definition keeps (P : gmap string (gmap string pyval) → Prop) {A : Type} (m : M A) : Prop :=
  ∀ w, P (table w) → P (table (snd (m w))).

(** *** Intake requests *)

(** The request carries a JSON object [body] whose [orderId] and
    [snackType] are the non-empty strings [order_id] and [snack_type]. *)
Definition valid_request `{Runtime} (event : pyval) (body : list (string * pyval))
    (order_id snack_type : string) : Prop :=
  CreateOrder.payload event = Ret (PDict body) ∧
  dict_get "orderId" body = Some (PStr order_id) ∧ order_id ≠ "" ∧
  dict_get "snackType" body = Some (PStr snack_type) ∧ snack_type ≠ "".

(** The field [k] of the request, in either calling convention; a request
    whose payload is not a JSON object has no field. *)
Definition request_field `{Runtime} (event : pyval) (k : string) : option pyval :=
  match CreateOrder.payload event with
  | Ret (PDict body) => dict_get k body
  | _ => None
  end.

(** *** Feed entries *)

(** An entry of a stream batch: an object whose [dynamodb] member, when it
    has one, is an object. *)
Definition stream_record (r : pyval) : bool :=
  match r with
  | PDict kv =>
      match dict_get "dynamodb" kv with
      | None | Some (PDict _) => true
      | Some _ => false
      end
  | _ => false
  end.

(** The entries of a stream batch event: [Records], when present, is a list
    of entries. *)
Definition records_of (event : pyval) : option (list pyval) :=
  match event with
  | PDict kvs =>
      match default (PList []) (dict_get "Records" kvs) with
      | PList rs => if forallb stream_record rs then Some rs else None
      | _ => None
      end
  | _ => None
  end.

Definition event_name_of (r : pyval) : pyval :=
  match r with
  | PDict kv => default PNone (dict_get "eventName" kv)
  | _ => PNone
  end.

Definition insert_or_modify (r : pyval) : bool :=
  eq_str (event_name_of r) "INSERT" || eq_str (event_name_of r) "MODIFY".

Definition new_image_of (r : pyval) : pyval :=
  match r with
  | PDict kv =>
      match default (PDict []) (dict_get "dynamodb" kv) with
      | PDict d => default PNone (dict_get "NewImage" d)
      | _ => PNone
      end
  | _ => PNone
  end.

(** An attribute of an image in the attribute-tagged encoding is absent or
    an object such as [{"S": "NEW"}]. *)
Definition tagged (img : pyval) (name : string) : bool :=
  match img with
  | PDict kvs =>
      match dict_get name kvs with
      | None | Some (PDict _) => true
      | Some _ => false
      end
  | _ => false
  end.

(** The string value of an attribute of a tagged image, [PNone] without one. *)
Definition attr_S (img : pyval) (name : string) : pyval :=
  match img with
  | PDict kvs =>
      match dict_get name kvs with
      | Some (PDict a) => default PNone (dict_get "S" a)
      | _ => PNone
      end
  | _ => PNone
  end.

(** The entries the processor has nothing to do for: the event kind is not
    insert/update, or there is no image, or the image (in the tagged
    encoding) has no [orderId] value, or its status is not NEW. *)
Definition irrelevant (r : pyval) : bool :=
  stream_record r &&
  (negb (insert_or_modify r)
   || negb (truthy (new_image_of r))
   || (tagged (new_image_of r) "orderId" && tagged (new_image_of r) "status"
       && (negb (truthy (attr_S (new_image_of r) "orderId"))
           || negb (eq_str (attr_S (new_image_of r) "status") "NEW")))).

(** An element of the failure list: the identifier of an entry with a truthy
    sequence number. *)
Definition failure_item (x : pyval) : Prop :=
  ∃ seq, truthy seq = true ∧ x = PDict [("itemIdentifier", seq)].

(** An insert/update entry whose image is the order [order_id] with status NEW. *)
Definition new_order_entry (r : pyval) (order_id : string) : bool :=
  stream_record r && insert_or_modify r
  && tagged (new_image_of r) "orderId" && tagged (new_image_of r) "status"
  && eq_str (attr_S (new_image_of r) "orderId") order_id
  && negb (String.eqb order_id "")
  && eq_str (attr_S (new_image_of r) "status") "NEW".

(** The order [k] is stored with status NEW. *)
Definition stored_new (w : World) (k : string) : bool :=
  match table w !! k with
  | Some it => eq_str (default PNone (it !! "status")) "NEW"
  | None => false
  end.

(** The order [k] is stored with a status other than NEW. *)
Definition stored_not_new (w : World) (k : string) : bool :=
  match table w !! k with
  | Some it => negb (eq_str (default PNone (it !! "status")) "NEW")
  | None => false
  end.

Section Runs.
Context `{RT : Runtime}.
Variable ttl_days : Z.
Variable topic_arn : string.

(** Every entry of the list is handled without an exception, one after
    the other from world [w]. *)
Fixpoint all_handled (rs : list pyval) (w : World) : Prop :=
  match rs with
  | [] => True
  | r :: rest =>
      match ProcessOrder.process_record topic_arn r w with
      | (Ret _, w') => all_handled rest w'
      | (Raise _, _) => False
      end
  end.

(** The worlds the two handlers can bring about from an empty table,
    whatever requests and batches arrive and whatever the environment
    injects. *)
Inductive reachable : World → Prop :=
  | reach_init tr fs n : reachable (mkWorld ∅ tr fs n)
  | reach_create w event context :
      reachable w → reachable (snd (CreateOrder.handler ttl_days event context w))
  | reach_process w event context :
      reachable w → reachable (snd (ProcessOrder.handler topic_arn event context w))
  | reach_env w fs :
      reachable w → reachable (mkWorld (table w) (trace w) fs (ticks w)).
End Runs.

(** ** A runtime and inputs for the worked examples *)

(** [json.dumps] on the values of the examples, whose strings are printable
    ASCII: the default separators, and a backslash before a quote or a
    backslash. *)
Definition quote_char : string := String (Ascii.ascii_of_nat 34) EmptyString.
Definition backslash : string := String (Ascii.ascii_of_nat 92) EmptyString.

Fixpoint escape (s : string) : string :=
  match s with
  | EmptyString => EmptyString
  | String c rest =>
      if (Ascii.eqb c (Ascii.ascii_of_nat 34) || Ascii.eqb c (Ascii.ascii_of_nat 92))%bool
      then backslash +:+ String c (escape rest)
      else String c (escape rest)
  end.

Definition quoted (s : string) : string := quote_char +:+ escape s +:+ quote_char.

Fixpoint join (sep : string) (parts : list string) : string :=
  match parts with
  | [] => ""
  | [p] => p
  | p :: rest => p +:+ sep +:+ join sep rest
  end.

Fixpoint dumps (v : pyval) : string :=
  match v with
  | PNone => "null"
  | PBool true => "true"
  | PBool false => "false"
  | PInt z => pretty z
  | PStr s => quoted s
  | PList l =>
      "[" +:+ join ", " ((fix each l := match l with
                                        | [] => []
                                        | x :: rest => dumps x :: each rest
                                        end) l) +:+ "]"
  | PDict kvs =>
      "{" +:+ join ", " ((fix each kvs := match kvs with
                                          | [] => []
                                          | (k, x) :: rest =>
                                              (quoted k +:+ ": " +:+ dumps x) :: each rest
                                          end) kvs) +:+ "}"
  end.

(** A decoder that knows three texts, on which it agrees with [json.loads];
    it reports a decoding error on every other text. *)
Definition loads_known (s : string) : option pyval :=
  if String.eqb s "[]" then Some (PList [])
  else if String.eqb s "{}" then Some (PDict [])
  else if String.eqb s "null" then Some PNone
  else None.

(** A clock stopped at 2025-10-18T10:00:00 UTC: a reading is its ISO text
    and its seconds since the epoch. *)
Definition sample_runtime : Runtime := {|
  datetime := string * Z;
  wall_clock := λ _, ("2025-10-18T10:00:00+00:00", 1760781600);
  isoformat := fst;
  epoch_after_days := λ d n, snd d + 86400 * n;
  json_loads := loads_known;
  json_dumps := dumps
|}.

Definition sample_topic : string := "arn:aws:sns:us-east-1:123456789012:test-topic".

Definition empty_world : World := mkWorld ∅ [] [] 0.

Definition order_request : pyval :=
  PDict [("orderId", PStr "order-123"); ("snackType", PStr "crisps")].

(** The world once the intake handler has taken in an order for crisps. *)
Definition take_in (order_id : string) (w : World) : World :=
  snd (CreateOrder.handler (RT := sample_runtime) 7
         (PDict [("orderId", PStr order_id); ("snackType", PStr "crisps")]) PNone w).

Definition world_with_order : World := take_in "order-123" empty_world.

(** The same world, with the environment about to inject [fs]. *)
Definition with_faults (fs : list (option fault)) (w : World) : World :=
  mkWorld (table w) (trace w) fs (ticks w).

(** A feed entry as the table's stream delivers it. *)
Definition stream_entry (event_name : string) (sequence_number : option string)
    (order_id status : string) : pyval :=
  PDict [("eventID", PStr "1");
         ("eventName", PStr event_name);
         ("dynamodb", PDict
            (match sequence_number with
             | Some n => [("SequenceNumber", PStr n)]
             | None => []
             end ++
             [("Keys", PDict [("orderId", PDict [("S", PStr order_id)])]);
              ("NewImage", PDict [("orderId", PDict [("S", PStr order_id)]);
                                  ("status", PDict [("S", PStr status)]);
                                  ("snackType", PDict [("S", PStr "crisps")])])]))].

Definition batch (records : list pyval) : pyval := PDict [("Records", PList records)].

(** ** More observations *)

(** The [statusCode] of a response of the intake handler. *)
Definition status_code (response : pyval) : option pyval :=
  match response with
  | PDict kvs => dict_get "statusCode" kvs
  | _ => None
  end.

(** The identifier an entry would be reported under. *)
Definition identifier_of `{Runtime} (r : pyval) : pyval :=
  match ProcessOrder.sequence_number_of r with
  | Ret seq => ProcessOrder.item_failure seq
  | Raise _ => ProcessOrder.item_failure PNone
  end.

Section Turns.
Context `{RT : Runtime}.
Variable topic_arn : string.

(** What one turn of the processor's loop can add to the trace and do to the
    table: nothing; or one failed update; or one successful update of an
    order stored with status NEW, followed by the publish of its
    notification, whatever comes of the publish. *)
Inductive turn : gmap string (gmap string pyval) → list (api_call * outcome) →
                 gmap string (gmap string pyval) → Prop :=
  | turn_skip t : turn t [] t
  | turn_update_failed t key ts e : turn t [(UpdateItem key ts, Failed e)] t
  | turn_processed t k it ts o :
      t !! k = Some it →
      eq_str (default PNone (it !! "status")) "NEW" = true →
      turn t
        [(UpdateItem (PStr k) ts, Done);
         (Publish topic_arn
            (json_dumps (PDict [("orderId", PStr k); ("status", PStr "PROCESSED")]))
            "Order Processed", o)]
        (<[k := processed ts it]> t).

(** One turn, from world to world. *)
Definition one_turn (w w' : World) : Prop :=
  ∃ tr, trace w' = trace w ++ tr ∧ turn (table w) tr (table w').

(** Turns one after the other. *)
Inductive turns : gmap string (gmap string pyval) → list (api_call * outcome) →
                  gmap string (gmap string pyval) → Prop :=
  | turns_nil t : turns t [] t
  | turns_cons t1 tr1 t2 tr2 t3 :
      turn t1 tr1 t2 → turns t2 tr2 t3 → turns t1 (tr1 ++ tr2) t3.
End Turns.

(** ** tests/test_process_order.py: the event the unit tests build *)

(** [create_stream_event(order_id, status, event_name="INSERT")] *)
Definition create_stream_event (order_id status event_name : string) : pyval :=
  PDict
    [("Records", PList
        [PDict
           [("eventID", PStr "1");
            ("eventName", PStr event_name);
            ("eventVersion", PStr "1.1");
            ("eventSource", PStr "aws:dynamodb");
            ("dynamodb", PDict
               [("SequenceNumber", PStr "111");
                ("Keys", PDict [("orderId", PDict [("S", PStr order_id)])]);
                ("NewImage", PDict
                   [("orderId", PDict [("S", PStr order_id)]);
                    ("status", PDict [("S", PStr status)]);
                    ("snackType", PDict [("S", PStr "crisps")]);
                    ("createdAt", PDict [("S", PStr "2025-10-18T10:00:00Z")])]);
                ("StreamViewType", PStr "NEW_AND_OLD_IMAGES")])]])].

(** The world once the stream processor has handled the insert entry of the
    order of [world_with_order]. *)
Definition world_processed : World :=
  snd (ProcessOrder.handler (RT := sample_runtime) sample_topic
         (batch [stream_entry "INSERT" (Some "111") "order-123" "NEW"]) PNone
         world_with_order).

(** * Proofs *)

(** ** Service calls *)

Lemma eqb_false_of_ne (a b : string) : a ≠ b → String.eqb a b = false.
Proof. intros. by apply String.eqb_neq. Qed.

Lemma key_of_str (k : string) : k ≠ "" → key_of (PStr k) = Some k.
Proof. intros Hk. unfold key_of. by rewrite (eqb_false_of_ne _ _ Hk). Qed.

Lemma quiet_head w : quiet w = true → head (faults w) = None ∨ head (faults w) = Some None.
Proof.
  unfold quiet. destruct (faults w) as [|[f|] fs]; simpl; auto. discriminate.
Qed.

Lemma quiet_drop w : quiet w = true → quiet (drop_fault w) = true.
Proof.
  unfold quiet, drop_fault. simpl. destruct (faults w) as [|[f|] fs]; simpl; done.
Qed.

Lemma service_call_quiet c sem w :
  quiet w = true →
  service_call c sem w =
    match sem (table w) with
    | inl t' => (Ret (), log_call c Done (set_table t' (drop_fault w)))
    | inr e => (Raise e, log_call c (Failed e) (drop_fault w))
    end.
Proof.
  intros Hq. unfold service_call. by destruct (quiet_head w Hq) as [-> | ->].
Qed.

Lemma service_call_fault c sem w f rest :
  faults w = Some f :: rest →
  service_call c sem w =
    (Raise (exn_of_fault f), log_call c (Failed (exn_of_fault f)) (drop_fault w)).
Proof. intros Hf. unfold service_call. by rewrite Hf. Qed.


Lemma eq_str_inv v s : eq_str v s = true → v = PStr s.
Proof.
  destruct v; simpl; try done. intros H. apply String.eqb_eq in H. by subst.
Qed.

Lemma quiet_calm w : quiet w = true → calm w = true.
Proof. unfold quiet, calm. by destruct (faults w) as [|[f|] fs]. Qed.

Lemma service_call_calm c sem w :
  calm w = true →
  service_call c sem w =
    match sem (table w) with
    | inl t' => (Ret (), log_call c Done (set_table t' (drop_fault w)))
    | inr e => (Raise e, log_call c (Failed e) (drop_fault w))
    end.
Proof.
  unfold calm, service_call. by destruct (head (faults w)) as [[f|]|].
Qed.

Lemma update_item_new k ts w :
  calm w = true → k ≠ "" → stored_new w k = true →
  ∃ it, table w !! k = Some it ∧
    update_item (PStr k) ts w =
      (Ret (), log_call (UpdateItem (PStr k) ts) Done
                 (set_table (<[k := processed ts it]> (table w)) (drop_fault w))).
Proof.
  intros Hc Hk Hn. unfold stored_new in Hn.
  destruct (table w !! k) as [it|] eqn:Hit; [|done]. exists it. split; [done|].
  unfold update_item. rewrite service_call_calm by done.
  unfold key_of. rewrite (eqb_false_of_ne _ _ Hk). by rewrite Hit, Hn.
Qed.

Lemma update_item_not_new k ts w :
  calm w = true → k ≠ "" → stored_new w k = false →
  update_item (PStr k) ts w =
    (Raise (ClientError ConditionalCheckFailed),
     log_call (UpdateItem (PStr k) ts) (Failed (ClientError ConditionalCheckFailed))
       (drop_fault w)).
Proof.
  intros Hc Hk Hn. unfold stored_new in Hn.
  unfold update_item. rewrite service_call_calm by done.
  unfold key_of. rewrite (eqb_false_of_ne _ _ Hk).
  destruct (table w !! k) as [it|]; [|done]. by rewrite Hn.
Qed.

Lemma publish_calm topic message subject w :
  calm w = true →
  publish topic message subject w =
    (Ret (), log_call (Publish topic message subject) Done
               (set_table (table w) (drop_fault w))).
Proof. intros Hc. unfold publish. by rewrite service_call_calm. Qed.


(** ** The intake handler *)

Section Intake.
Context `{RT : Runtime}.
Variable ttl_days : Z.

Lemma handler_valid event context body oid snack w :
valid_request event body oid snack →
CreateOrder.handler ttl_days event context w =
  let item := CreateOrder.order_item ttl_days (PStr oid) (PStr snack) (wall_clock (ticks w)) in
  let w1 := tick w in
  match put_item item w1 with
  | (Ret _, w2) => (Ret (CreateOrder.created (PStr oid)), w2)
  | (Raise (ClientError code), w2) =>
      if String.eqb code ConditionalCheckFailed
      then (Ret (CreateOrder.already_exists (PStr oid)), w2)
      else (Ret CreateOrder.internal_error, w2)
  | (Raise JSONDecodeError, w2) => (Ret CreateOrder.invalid_json, w2)
  | (Raise _, w2) => (Ret CreateOrder.internal_error, w2)
  end.
Proof.
intros (Hp & Ho & Hne & Hs & Hsne).
unfold CreateOrder.handler, try_except, mbind, M_bind, lift, py_get, get, mret, M_ret, datetime_now.
rewrite Hp. rewrite Ho, Hs. simpl.
rewrite (eqb_false_of_ne _ _ Hne), (eqb_false_of_ne _ _ Hsne). simpl.
destruct (put_item _ _) as [[[]|e] w2]; try done.
destruct e; try done.
unfold raise. destruct (String.eqb code ConditionalCheckFailed); done.
Qed.

Lemma put_item_fresh item k w :
quiet w = true → dict_get "orderId" item = Some (PStr k) → k ≠ "" →
table w !! k = None →
put_item item w =
  (Ret (), log_call (PutItem item) Done (set_table (<[k := stored item]> (table w)) (drop_fault w))).
Proof.
intros Hq Hk Hne Hfree. unfold put_item. rewrite service_call_quiet by done.
rewrite Hk. change (Some (PStr k) ≫= key_of) with (key_of (PStr k)).
rewrite key_of_str by done. by rewrite Hfree.
Qed.

Lemma put_item_taken item k it w :
quiet w = true → dict_get "orderId" item = Some (PStr k) → k ≠ "" →
table w !! k = Some it →
put_item item w =
  (Raise (ClientError ConditionalCheckFailed),
   log_call (PutItem item) (Failed (ClientError ConditionalCheckFailed)) (drop_fault w)).
Proof.
intros Hq Hk Hne Hin. unfold put_item. rewrite service_call_quiet by done.
rewrite Hk. change (Some (PStr k) ≫= key_of) with (key_of (PStr k)).
rewrite key_of_str by done. by rewrite Hin.
Qed.

Lemma first_call event context body oid snack w :
valid_request event body oid snack → table w !! oid = None → quiet w = true →
CreateOrder.handler ttl_days event context w =
  let item := CreateOrder.order_item ttl_days (PStr oid) (PStr snack) (wall_clock (ticks w)) in
  (Ret (CreateOrder.created (PStr oid)),
   log_call (PutItem item) Done
     (set_table (<[oid := stored item]> (table w)) (drop_fault (tick w)))).
Proof.
intros Hv Hfree Hq. rewrite (handler_valid _ _ _ _ _ _ Hv). cbv zeta.
destruct Hv as (_ & _ & Hne & _).
by rewrite (put_item_fresh _ oid).
Qed.

Lemma later_call event context body oid snack it w :
valid_request event body oid snack → table w !! oid = Some it → quiet w = true →
CreateOrder.handler ttl_days event context w =
  let item := CreateOrder.order_item ttl_days (PStr oid) (PStr snack) (wall_clock (ticks w)) in
  (Ret (CreateOrder.already_exists (PStr oid)),
   log_call (PutItem item) (Failed (ClientError ConditionalCheckFailed)) (drop_fault (tick w))).
Proof.
intros Hv Hin Hq. rewrite (handler_valid _ _ _ _ _ _ Hv). cbv zeta.
destruct Hv as (_ & _ & Hne & _).
by rewrite (put_item_taken _ oid it).
Qed.

Lemma written_app tr1 tr2 : written (tr1 ++ tr2) = (written tr1 ++ written tr2)%list.
Proof. apply omap_app. Qed.

Lemma repeat_later event context body oid snack it n : ∀ w,
valid_request event body oid snack → table w !! oid = Some it → quiet w = true →
∃ w', repeat_run n (CreateOrder.handler ttl_days event context) w =
        (Ret (replicate n (CreateOrder.already_exists (PStr oid))), w')
      ∧ table w' = table w ∧ written (trace w') = written (trace w).
Proof.
induction n as [|n IH]; intros w Hv Hin Hq.
- exists w. done.
- simpl. unfold mbind, M_bind. rewrite (later_call _ _ _ _ _ _ _ Hv Hin Hq). cbv zeta.
  set (w1 := log_call _ _ _).
  destruct (IH w1) as (w' & Hrun & Ht & Hw); [done | done | by apply quiet_drop |].
  exists w'. rewrite Hrun. split; [done|]. split; [by rewrite Ht|].
  rewrite Hw. unfold w1. simpl. rewrite written_app. simpl. by rewrite app_nil_r.
Qed.

(** C2. A valid creation call repeated against a table that does not hold the
  order yet, with no failure injected: the first call writes the record
  and answers 201 "Order created successfully" with the orderId and status
  NEW, each of the [n] calls after it hits the conditional-check failure
  and answers 200 "Order already exists" with the orderId; the table has
  gained exactly the one record of the first call, and that is the only
  successful write. *)
Theorem idempotent_create event context body oid snack w n :
valid_request event body oid snack → table w !! oid = None → quiet w = true →
let item := CreateOrder.order_item ttl_days (PStr oid) (PStr snack) (wall_clock (ticks w)) in
∃ w', repeat_run (S n) (CreateOrder.handler ttl_days event context) w =
        (Ret (PDict [("statusCode", PInt 201);
                     ("body", PStr (json_dumps (PDict
                        [("message", PStr "Order created successfully");
                         ("orderId", PStr oid);
                         ("status", PStr "NEW")])))]
              :: replicate n
                   (PDict [("statusCode", PInt 200);
                           ("body", PStr (json_dumps (PDict
                              [("message", PStr "Order already exists");
                               ("orderId", PStr oid)])))])), w')
      ∧ table w' = <[oid := stored item]> (table w)
      ∧ size (table w') = S (size (table w))
      ∧ written (trace w') = (written (trace w) ++ [item])%list.
Proof.
intros Hv Hfree Hq item. simpl. unfold mbind at 1, M_bind at 1.
rewrite (first_call _ _ _ _ _ _ Hv Hfree Hq). cbv zeta. fold item.
set (w1 := log_call _ _ _).
destruct (repeat_later event context body oid snack (stored item) n w1) as (w' & Hrun & Ht & Hw);
  [done | by apply lookup_insert_eq | by apply quiet_drop |].
exists w'. unfold mbind, M_bind. rewrite Hrun. split; [done|].
rewrite Ht, Hw. unfold w1. simpl. split; [done|]. split.
- by apply map_size_insert_None.
- by rewrite written_app.
Qed.

Lemma field_check (o : option pyval) :
  negb (truthy (default PNone o)) || negb (is_str (default PNone o)) = negb (non_empty_str o).
Proof.
  destruct o as [[| b | z | s | l | kvs]|]; simpl;
    rewrite ?orb_true_r, ?orb_false_r; done.
Qed.

(** C6, as amended. When the payload of the request (the event, or the value
    decoded from its string body) is a JSON object in which orderId or
    snackType is missing, empty or not a string, the handler answers 400 with
    an error naming the first such field, and the world is untouched: no
    storage call is made. *)
Theorem invalid_request_rejected event context body w :
  CreateOrder.payload event = Ret (PDict body) →
  non_empty_str (dict_get "orderId" body) = false
  ∨ non_empty_str (dict_get "snackType" body) = false →
  ∃ field,
    (field = "orderId" ∧ non_empty_str (dict_get "orderId" body) = false
     ∨ field = "snackType" ∧ non_empty_str (dict_get "orderId" body) = true
       ∧ non_empty_str (dict_get "snackType" body) = false) ∧
    CreateOrder.handler ttl_days event context w =
      (Ret (PDict [("statusCode", PInt 400);
                   ("body", PStr (json_dumps (PDict
                      [("error", PStr ("Missing or invalid " +:+ field
                                       +:+ " (must be a non-empty string)"))])))]),
       w).
Proof.
  intros Hp Hbad.
  unfold CreateOrder.handler, py_get, get, try_except, mbind, M_bind, lift, mret, M_ret.
  rewrite Hp. cbv beta iota. rewrite !field_check.
  destruct (non_empty_str (dict_get "orderId" body)) eqn:Ho.
  - destruct Hbad as [?|Hs]; [done|]. rewrite Hs. exists "snackType". split; [|done].
    right. done.
  - exists "orderId". split; [|done]. by left.
Qed.

(** C7. For a valid request, when the write fails with anything but the
    conditional-check failure, the handler answers 500 "Internal server
    error" (not 201, 200 or 400) and the table is as it was. *)
Theorem storage_failure_is_internal_error event context body oid snack w f rest :
  valid_request event body oid snack →
  faults w = Some f :: rest →
  unexpected f →
  ∃ w',
    CreateOrder.handler ttl_days event context w =
      (Ret (PDict [("statusCode", PInt 500);
                   ("body", PStr (json_dumps (PDict
                      [("error", PStr "Internal server error")])))]), w') ∧
    table w' = table w ∧
    trace w' =
      trace w ++
      [(PutItem (CreateOrder.order_item ttl_days (PStr oid) (PStr snack) (wall_clock (ticks w))),
        Failed (exn_of_fault f))].
Proof.
  intros Hv Hf Hu. rewrite (handler_valid _ _ _ _ _ _ Hv). cbv zeta.
  unfold put_item. erewrite service_call_fault by (cbn [faults tick]; exact Hf).
  destruct f as [code|name]; cbn [exn_of_fault].
  - assert (Hne : code ≠ ConditionalCheckFailed) by (intros ->; by apply Hu).
    rewrite (eqb_false_of_ne _ _ Hne). by eexists.
  - by eexists.
Qed.
End Intake.

(** ** The stream processor *)

Section Stream.
Context `{RT : Runtime}.
Variable topic_arn : string.

Lemma process_record_tagged r w :
  stream_record r = true →
  (insert_or_modify r = true → truthy (new_image_of r) = true →
   tagged (new_image_of r) "orderId" = true ∧ tagged (new_image_of r) "status" = true) →
  ProcessOrder.process_record topic_arn r w =
    if negb (insert_or_modify r) then (Ret (), w)
    else if negb (truthy (new_image_of r)) then (Ret (), w)
    else if negb (truthy (attr_S (new_image_of r) "orderId")) then (Ret (), w)
    else if negb (eq_str (attr_S (new_image_of r) "status") "NEW") then (Ret (), w)
    else ProcessOrder.transition topic_arn (attr_S (new_image_of r) "orderId")
           (wall_clock (ticks w)) (tick w).
Proof.
  intros Hr Ht. destruct r as [| | | |l|kv]; try done.
  unfold ProcessOrder.process_record.
  unfold mbind at 1, M_bind at 1, py_get at 1, lift at 1, get at 1.
  destruct (insert_or_modify (PDict kv)) eqn:Him;
    unfold insert_or_modify, event_name_of in Him; rewrite Him; [|done].
  specialize (Ht eq_refl). cbn [negb].
  unfold new_image_of in *. simpl in Hr.
  unfold mbind at 1, M_bind at 1, py_get at 1, lift at 1, get at 1.
  destruct (dict_get "dynamodb" kv) as [dv|]; simpl default in *.
  2:{ done. }
  destruct dv as [| | | |?|d]; try done.
  unfold mbind at 1, M_bind at 1, py_get at 1, lift at 1, get at 1.
  destruct (truthy (default PNone (dict_get "NewImage" d))) eqn:Htr; [|done].
  destruct (Ht eq_refl) as [Ho Hs]. simpl negb. cbv iota.
  destruct (default PNone (dict_get "NewImage" d)) as [| | | |?|img]; try done.
  unfold tagged, attr_S in *.
  unfold mbind, M_bind, py_get, lift, get.
  destruct (dict_get "orderId" img) as [[| | | |?|a]|]; try done;
  destruct (dict_get "status" img) as [[| | | |?|b]|]; try done; simpl default.
  all: cbn [negb default from_option id].
  all: destruct (negb (truthy (default PNone (dict_get "S" a)))); [done|].
  all: destruct (negb (eq_str _ "NEW")); done.
Qed.

Lemma loop_body_run r seq acc w :
  ProcessOrder.sequence_number_of r = Ret seq →
  ProcessOrder.loop_body topic_arn acc r w =
    match ProcessOrder.process_record topic_arn r w with
    | (Ret _, w') => (Ret acc, w')
    | (Raise _, w') =>
        (Ret (if truthy seq then acc ++ [ProcessOrder.item_failure seq] else acc)%list, w')
    end.
Proof.
  intros Hs. unfold ProcessOrder.loop_body, mbind, M_bind, lift, try_except. rewrite Hs.
  destruct (ProcessOrder.process_record _ _ _) as [[[]|e] w']; [done|].
  by destruct (truthy seq).
Qed.

Lemma stream_record_sequence_number r :
  stream_record r = true → ∃ seq, ProcessOrder.sequence_number_of r = Ret seq.
Proof.
  destruct r as [| | | |?|kv]; try done. simpl.
  unfold ProcessOrder.sequence_number_of, mbind, result_bind, get.
  destruct (dict_get "dynamodb" kv) as [[| | | |?|d]|]; try done; simpl; eauto.
Qed.

Lemma new_order_entry_run r k w :
  new_order_entry r k = true →
  k ≠ "" ∧
  ProcessOrder.process_record topic_arn r w =
    ProcessOrder.transition topic_arn (PStr k) (wall_clock (ticks w)) (tick w).
Proof.
  unfold new_order_entry. intros H. rewrite !andb_true_iff in H.
  destruct H as ((((((Hs & Him) & Hto) & Hts) & Ho) & Hk) & Hst).
  assert (Hne : k ≠ "").
  { intros ->. done. }
  split; [done|].
  apply eq_str_inv in Ho.
  assert (Htr : truthy (new_image_of r) = true).
  { destruct (new_image_of r) as [| | | |?|img]; try done. by destruct img. }
  rewrite process_record_tagged by done.
  rewrite Him, Htr, Ho, Hst. cbn [negb truthy].
  by rewrite (eqb_false_of_ne _ _ Hne).
Qed.

Lemma transition_new k now w :
  calm w = true → calm (drop_fault w) = true → k ≠ "" → stored_new w k = true →
  ∃ it, table w !! k = Some it ∧
    ProcessOrder.transition topic_arn (PStr k) now w =
      (Ret (),
       log_call
         (Publish topic_arn
            (json_dumps (PDict [("orderId", PStr k); ("status", PStr "PROCESSED")]))
            "Order Processed") Done
         (set_table (<[k := processed (isoformat now) it]> (table w))
            (drop_fault
               (log_call (UpdateItem (PStr k) (isoformat now)) Done
                  (set_table (<[k := processed (isoformat now) it]> (table w))
                     (drop_fault w)))))).
Proof.
  intros Hc Hc' Hk Hn.
  destruct (update_item_new k (isoformat now) w Hc Hk Hn) as (it & Hit & Hu).
  exists it. split; [done|].
  unfold ProcessOrder.transition, try_except, mbind, M_bind. rewrite Hu.
  by rewrite publish_calm.
Qed.

Lemma transition_publish_fault k now f rest w :
  faults w = None :: Some f :: rest → unexpected f → k ≠ "" → stored_new w k = true →
  ∃ it, table w !! k = Some it ∧
    ProcessOrder.transition topic_arn (PStr k) now w =
      (Raise (exn_of_fault f),
       log_call
         (Publish topic_arn
            (json_dumps (PDict [("orderId", PStr k); ("status", PStr "PROCESSED")]))
            "Order Processed") (Failed (exn_of_fault f))
         (drop_fault
            (log_call (UpdateItem (PStr k) (isoformat now)) Done
               (set_table (<[k := processed (isoformat now) it]> (table w))
                  (drop_fault w))))).
Proof.
  intros Hf Hu Hk Hn.
  assert (Hc : calm w = true) by (unfold calm; by rewrite Hf).
  destruct (update_item_new k (isoformat now) w Hc Hk Hn) as (it & Hit & Hup).
  exists it. split; [done|].
  unfold ProcessOrder.transition, try_except, mbind, M_bind. rewrite Hup.
  unfold publish. erewrite service_call_fault by (simpl; by rewrite Hf).
  destruct f as [code|name]; simpl; [|done].
  assert (Hne : code ≠ ConditionalCheckFailed) by (intros ->; by apply Hu).
  by rewrite (eqb_false_of_ne _ _ Hne).
Qed.

Lemma transition_not_new k now w :
  k ≠ "" → stored_new w k = false →
  ∃ res e,
    ProcessOrder.transition topic_arn (PStr k) now w =
      (res, log_call (UpdateItem (PStr k) (isoformat now)) (Failed e) (drop_fault w)).
Proof.
  intros Hk Hn. unfold ProcessOrder.transition, try_except, mbind, M_bind.
  destruct (calm w) eqn:Hc.
  - rewrite update_item_not_new by done. simpl. eauto.
  - unfold calm in Hc. destruct (faults w) as [|[f|] rest] eqn:Hf; try done.
    unfold update_item. erewrite service_call_fault by done.
    destruct f as [code|name]; simpl; [|eauto].
    destruct (String.eqb code ConditionalCheckFailed); simpl; eauto.
Qed.

Lemma handler_records event context rs w :
  records_of event = Some rs →
  ProcessOrder.handler topic_arn event context w =
    match for_each rs [] (ProcessOrder.loop_body topic_arn) w with
    | (Ret fl, w') => (Ret (PDict [("batchItemFailures", PList fl)]), w')
    | (Raise e, w') => (Raise e, w')
    end.
Proof.
  unfold records_of. destruct event as [| | | |?|kvs]; try done.
  destruct (default (PList []) (dict_get "Records" kvs)) as [| | | |l|?] eqn:Hr; try done.
  destruct (forallb stream_record l); [|done]. intros [= <-].
  unfold ProcessOrder.handler, mbind, M_bind, py_get, py_iter, lift, get.
  rewrite Hr. simpl. by destruct (for_each _ _ _ _) as [[fl|e] w'].
Qed.

Lemma new_order_entry_stream r k : new_order_entry r k = true → stream_record r = true.
Proof.
  unfold new_order_entry. intros H. rewrite !andb_true_iff in H. tauto.
Qed.

Lemma new_order_turn r k seq acc w :
  new_order_entry r k = true →
  ProcessOrder.sequence_number_of r = Ret seq →
  ProcessOrder.loop_body topic_arn acc r w =
    match ProcessOrder.transition topic_arn (PStr k) (wall_clock (ticks w)) (tick w) with
    | (Ret _, w') => (Ret acc, w')
    | (Raise _, w') =>
        (Ret (if truthy seq then acc ++ [ProcessOrder.item_failure seq] else acc)%list, w')
    end.
Proof.
  intros Hr Hs. rewrite (loop_body_run _ _ _ _ Hs).
  by destruct (new_order_entry_run r k w Hr) as [_ ->].
Qed.

Lemma stored_new_not k w : stored_not_new w k = true → stored_new w k = false.
Proof.
  unfold stored_not_new, stored_new. destruct (table w !! k); [|done].
  by destruct (eq_str _ _).
Qed.

Lemma processed_not_new ts it :
  eq_str (default PNone (processed ts it !! "status")) "NEW" = false.
Proof.
  unfold processed. rewrite lookup_insert_ne by done. by rewrite lookup_insert_eq.
Qed.

(** C1. An insert/update entry whose image has status NEW, for an order
    stored with status NEW, handled twice with no failure injected: the first
    handling makes the conditional update and one publish and reports no
    failure; the second one gets the conditional-check failure from the
    update, changes nothing in the table, publishes nothing and reports no
    failure. *)
Theorem single_transition r k event context context' w :
  new_order_entry r k = true →
  records_of event = Some [r] →
  stored_new w k = true →
  quiet w = true →
  ∃ it w1 w2,
    table w !! k = Some it ∧
    ProcessOrder.handler topic_arn event context w =
      (Ret (PDict [("batchItemFailures", PList [])]), w1) ∧
    table w1 = <[k := processed (isoformat (wall_clock (ticks w))) it]> (table w) ∧
    trace w1 =
      (trace w ++
       [(UpdateItem (PStr k) (isoformat (wall_clock (ticks w))), Done);
        (Publish topic_arn
           (json_dumps (PDict [("orderId", PStr k); ("status", PStr "PROCESSED")]))
           "Order Processed", Done)])%list ∧
    ProcessOrder.handler topic_arn event context' w1 =
      (Ret (PDict [("batchItemFailures", PList [])]), w2) ∧
    table w2 = table w1 ∧
    trace w2 =
      (trace w1 ++
       [(UpdateItem (PStr k) (isoformat (wall_clock (ticks w1))),
         Failed (ClientError ConditionalCheckFailed))])%list.
Proof.
  intros Hr Hev Hn Hq.
  destruct (stream_record_sequence_number r (new_order_entry_stream r k Hr)) as [seq Hs].
  destruct (new_order_entry_run r k w Hr) as [Hk _].
  assert (Hq1 : quiet (drop_fault w) = true) by by apply quiet_drop.
  destruct (transition_new k (wall_clock (ticks w)) (tick w)) as (it & Hit & Ht);
    [by apply quiet_calm | by apply quiet_calm | done | done |].
  eexists it, _, _. split; [done|].
  rewrite !(handler_records _ _ _ _ Hev). cbn [for_each]. unfold mbind, M_bind.
  rewrite (new_order_turn _ _ _ _ _ Hr Hs), Ht. cbn [mret M_ret].
  split; [reflexivity|]. split; [reflexivity|].
  split; [cbn [trace log_call set_table drop_fault tick]; by rewrite <- app_assoc|].
  set (w1 := log_call _ _ _).
  rewrite (new_order_turn _ _ _ _ _ Hr Hs).
  assert (Hq2 : quiet w1 = true) by (by apply quiet_drop in Hq1).
  unfold ProcessOrder.transition, try_except, mbind, M_bind.
  rewrite update_item_not_new; [| by apply quiet_calm | done |].
  - done.
  - unfold stored_new, w1. cbn [table log_call set_table drop_fault tick].
    rewrite lookup_insert_eq. apply processed_not_new.
Qed.

Lemma publish_calls_app tr1 tr2 :
  publish_calls (tr1 ++ tr2) = (publish_calls tr1 ++ publish_calls tr2)%list.
Proof. apply omap_app. Qed.

Lemma redelivery_turn r k event context w :
  new_order_entry r k = true →
  records_of event = Some [r] →
  stored_not_new w k = true →
  ∃ res w',
    ProcessOrder.handler topic_arn event context w = (Ret res, w') ∧
    table w' = table w ∧
    publish_calls (trace w') = publish_calls (trace w).
Proof.
  intros Hr Hev Hn.
  destruct (stream_record_sequence_number r (new_order_entry_stream r k Hr)) as [seq Hs].
  destruct (new_order_entry_run r k w Hr) as [Hk _].
  rewrite (handler_records _ _ _ _ Hev). cbn [for_each]. unfold mbind, M_bind.
  rewrite (new_order_turn _ _ _ _ _ Hr Hs).
  destruct (transition_not_new k (wall_clock (ticks w)) (tick w) Hk) as (res & e & ->).
  { by apply stored_new_not in Hn. }
  destruct res as [[]|e']; cbn [mret M_ret]; eexists _, _; (split; [reflexivity|]);
    cbn [table trace log_call set_table drop_fault tick];
    rewrite publish_calls_app; cbn; by rewrite app_nil_r.
Qed.

Lemma redelivery_runs r k event context n : ∀ w,
  new_order_entry r k = true →
  records_of event = Some [r] →
  stored_not_new w k = true →
  ∃ rs w',
    repeat_run n (ProcessOrder.handler topic_arn event context) w = (Ret rs, w') ∧
    table w' = table w ∧
    publish_calls (trace w') = publish_calls (trace w).
Proof.
  induction n as [|n IH]; intros w Hr Hev Hn.
  - by exists [], w.
  - destruct (redelivery_turn r k event context w Hr Hev Hn) as (res & w1 & Hrun & Ht & Hp).
    destruct (IH w1 Hr Hev) as (rs & w2 & Hrun2 & Ht2 & Hp2).
    { unfold stored_not_new in *. by rewrite Ht. }
    exists (res :: rs), w2. cbn [repeat_run]. unfold mbind, M_bind.
    rewrite Hrun, Hrun2. split; [done|]. split; congruence.
Qed.

(** C10. The publish comes after the update has been committed: when the
    update goes through and the publish fails, the entry is reported failed
    and the order is already PROCESSED; redelivering the entry gets the
    conditional-check failure and no failure is reported, and however often
    it is redelivered, whatever the environment does, no publish is ever
    called again. *)
Theorem lost_notification r k seq event context w f rest n :
  new_order_entry r k = true →
  records_of event = Some [r] →
  ProcessOrder.sequence_number_of r = Ret seq →
  truthy seq = true →
  stored_new w k = true →
  faults w = None :: Some f :: rest →
  unexpected f →
  ∃ it w1,
    table w !! k = Some it ∧
    ProcessOrder.handler topic_arn event context w =
      (Ret (PDict [("batchItemFailures", PList [PDict [("itemIdentifier", seq)]])]), w1) ∧
    table w1 = <[k := processed (isoformat (wall_clock (ticks w))) it]> (table w) ∧
    trace w1 =
      (trace w ++
       [(UpdateItem (PStr k) (isoformat (wall_clock (ticks w))), Done);
        (Publish topic_arn
           (json_dumps (PDict [("orderId", PStr k); ("status", PStr "PROCESSED")]))
           "Order Processed", Failed (exn_of_fault f))])%list ∧
    faults w1 = rest ∧
    (calm w1 = true →
     ∃ w2,
       ProcessOrder.handler topic_arn event context w1 =
         (Ret (PDict [("batchItemFailures", PList [])]), w2) ∧
       trace w2 =
         (trace w1 ++
          [(UpdateItem (PStr k) (isoformat (wall_clock (ticks w1))),
            Failed (ClientError ConditionalCheckFailed))])%list) ∧
    ∃ rs w2,
      repeat_run n (ProcessOrder.handler topic_arn event context) w1 = (Ret rs, w2) ∧
      table w2 = table w1 ∧
      publish_calls (trace w2) = publish_calls (trace w1).
Proof.
  intros Hr Hev Hs Hseq Hn Hf Hu.
  destruct (new_order_entry_run r k w Hr) as [Hk _].
  destruct (transition_publish_fault k (wall_clock (ticks w)) f rest (tick w))
    as (it & Hit & Ht); [done..|].
  eexists it, _. split; [done|].
  rewrite (handler_records _ _ _ _ Hev). cbn [for_each]. unfold mbind, M_bind.
  rewrite (new_order_turn _ _ _ _ _ Hr Hs), Ht, Hseq. cbn [mret M_ret app].
  split; [reflexivity|]. split; [reflexivity|].
  split; [cbn [trace log_call set_table drop_fault tick]; by rewrite <- app_assoc|].
  split; [cbn [faults log_call set_table drop_fault tick]; by rewrite Hf|].
  set (w1 := log_call _ _ _).
  assert (Hpn : stored_not_new w1 k = true).
  { unfold stored_not_new, w1. cbn [table log_call set_table drop_fault tick].
    rewrite lookup_insert_eq. by rewrite processed_not_new. }
  split.
  - intros Hc. eexists.
    rewrite (handler_records _ _ _ _ Hev). cbn [for_each]. unfold mbind, M_bind.
    rewrite (new_order_turn _ _ _ _ _ Hr Hs).
    unfold ProcessOrder.transition, try_except, mbind, M_bind.
    rewrite update_item_not_new; [| done | done | by apply stored_new_not].
    split; reflexivity.
  - by apply (redelivery_runs r k).
Qed.

Lemma for_each_app {A S : Type} (xs ys : list A) (body : S → A → M S) : ∀ acc w,
  for_each (xs ++ ys) acc body w =
    match for_each xs acc body w with
    | (Ret acc', w') => for_each ys acc' body w'
    | (Raise e, w') => (Raise e, w')
    end.
Proof.
  induction xs as [|x xs IH]; intros acc w; [done|].
  cbn [for_each app]. unfold mbind, M_bind.
  destruct (body acc x w) as [[acc'|e] w']; [apply IH | done].
Qed.

Lemma loop_body_grows r acc w :
  stream_record r = true →
  ∃ ext w', ProcessOrder.loop_body topic_arn acc r w = (Ret (acc ++ ext)%list, w') ∧
    Forall failure_item ext.
Proof.
  intros Hr. destruct (stream_record_sequence_number r Hr) as [seq Hs].
  rewrite (loop_body_run _ _ _ _ Hs).
  destruct (ProcessOrder.process_record _ _ _) as [[[]|e] w'].
  - exists [], w'. by rewrite app_nil_r.
  - destruct (truthy seq) eqn:Ht.
    + eexists [_], w'. split; [done|]. apply Forall_singleton. by exists seq.
    + exists [], w'. by rewrite app_nil_r.
Qed.

Lemma for_each_total rs : ∀ acc w,
  forallb stream_record rs = true →
  ∃ ext w',
    for_each rs acc (ProcessOrder.loop_body topic_arn) w = (Ret (acc ++ ext)%list, w') ∧
    Forall failure_item ext.
Proof.
  induction rs as [|r rs IH]; intros acc w Hrs.
  - exists [], w. by rewrite app_nil_r.
  - cbn [forallb] in Hrs. apply andb_prop in Hrs as [Hr Hrs].
    destruct (loop_body_grows r acc w Hr) as (ext1 & w1 & Hrun & Hext1).
    destruct (IH (acc ++ ext1)%list w1 Hrs) as (ext2 & w2 & Hrun2 & Hext2).
    exists (ext1 ++ ext2)%list, w2. cbn [for_each]. unfold mbind, M_bind. rewrite Hrun, Hrun2.
    rewrite app_assoc. split; [done|]. by apply Forall_app.
Qed.

Lemma records_of_stream event rs :
  records_of event = Some rs → forallb stream_record rs = true.
Proof.
  unfold records_of. destruct event as [| | | |?|kvs]; try done.
  destruct (default _ _) as [| | | |l|?]; try done.
  destruct (forallb stream_record l) eqn:H; [|done]. by intros [= <-].
Qed.

Lemma all_handled_no_failure rs : ∀ acc w,
  forallb stream_record rs = true →
  all_handled topic_arn rs w →
  ∃ w', for_each rs acc (ProcessOrder.loop_body topic_arn) w = (Ret acc, w').
Proof.
  induction rs as [|r rs IH]; intros acc w Hrs Hall.
  - by exists w.
  - cbn [forallb] in Hrs. apply andb_prop in Hrs as [Hr Hrs].
    destruct (stream_record_sequence_number r Hr) as [seq Hs].
    cbn [for_each all_handled] in *. unfold mbind, M_bind.
    rewrite (loop_body_run _ _ _ _ Hs).
    destruct (ProcessOrder.process_record _ _ _) as [[[]|e] w']; [|done].
    by apply IH.
Qed.

(** C4. On a stream batch event the handler returns, never raises: its result
    is [{"batchItemFailures": [...]}], each element of the list being
    [{"itemIdentifier": seq}], and the list is empty when every entry was
    handled without an exception. *)
Theorem never_raises event context rs w :
  records_of event = Some rs →
  ∃ fl w',
    ProcessOrder.handler topic_arn event context w =
      (Ret (PDict [("batchItemFailures", PList fl)]), w') ∧
    Forall (λ x, ∃ seq, truthy seq = true ∧ x = PDict [("itemIdentifier", seq)]) fl ∧
    (all_handled topic_arn rs w → fl = []).
Proof.
  intros Hev. pose proof (records_of_stream _ _ Hev) as Hrs.
  destruct (for_each_total rs [] w Hrs) as (fl & w' & Hrun & Hfl).
  exists fl, w'. rewrite (handler_records _ _ _ _ Hev), Hrun.
  split; [done|]. split; [done|].
  intros Hall. destruct (all_handled_no_failure rs [] w Hrs Hall) as [w'' Hrun'].
  cbn [app] in Hrun. congruence.
Qed.

Lemma failure_item_truthy seq : failure_item (ProcessOrder.item_failure seq) → truthy seq = true.
Proof. intros (seq' & Ht & Heq). by injection Heq as ->. Qed.

(** C3, as amended. In a batch [pre ++ r :: post], when the handling of [r]
    raises and the sequence number of [r] is truthy, the returned failure
    list holds [{"itemIdentifier": seq}], and the entries after [r] are
    handled all the same, from the world that [r] left. *)
Theorem failure_isolated pre r post event context w fl1 w1 e w2 seq :
  records_of event = Some (pre ++ r :: post) →
  for_each pre [] (ProcessOrder.loop_body topic_arn) w = (Ret fl1, w1) →
  ProcessOrder.process_record topic_arn r w1 = (Raise e, w2) →
  ProcessOrder.sequence_number_of r = Ret seq →
  truthy seq = true →
  ∃ fl3 w3,
    for_each post (fl1 ++ [PDict [("itemIdentifier", seq)]]) (ProcessOrder.loop_body topic_arn) w2
      = (Ret fl3, w3) ∧
    ProcessOrder.handler topic_arn event context w =
      (Ret (PDict [("batchItemFailures", PList fl3)]), w3) ∧
    PDict [("itemIdentifier", seq)] ∈ fl3.
Proof.
  intros Hev Hpre Hraise Hs Ht.
  pose proof (records_of_stream _ _ Hev) as Hrs.
  rewrite forallb_app in Hrs. apply andb_prop in Hrs as [_ Hrs].
  cbn [forallb] in Hrs. apply andb_prop in Hrs as [_ Hpost].
  destruct (for_each_total post (fl1 ++ [PDict [("itemIdentifier", seq)]]) w2 Hpost)
    as (ext & w3 & Hrun & _).
  eexists _, w3. split; [exact Hrun|].
  rewrite (handler_records _ _ _ _ Hev), for_each_app, Hpre.
  cbn [for_each]. unfold mbind at 1, M_bind at 1.
  rewrite (loop_body_run _ _ _ _ Hs), Hraise, Ht.
  change (ProcessOrder.item_failure seq) with (PDict [("itemIdentifier", seq)]).
  rewrite Hrun. split; [done|].
  rewrite !elem_of_app, list_elem_of_singleton. auto.
Qed.

(** C9. In a batch [pre ++ r :: post], when the handling of [r] raises and
    the sequence number of [r] is absent or falsy, the failure list goes on
    as it was before [r]: the returned list has no element for [r]. *)
Theorem falsy_sequence_number_omitted pre r post event context w fl1 w1 e w2 seq :
  records_of event = Some (pre ++ r :: post) →
  for_each pre [] (ProcessOrder.loop_body topic_arn) w = (Ret fl1, w1) →
  ProcessOrder.process_record topic_arn r w1 = (Raise e, w2) →
  ProcessOrder.sequence_number_of r = Ret seq →
  truthy seq = false →
  ∃ fl3 w3,
    for_each post fl1 (ProcessOrder.loop_body topic_arn) w2 = (Ret fl3, w3) ∧
    ProcessOrder.handler topic_arn event context w =
      (Ret (PDict [("batchItemFailures", PList fl3)]), w3) ∧
    PDict [("itemIdentifier", seq)] ∉ fl3.
Proof.
  intros Hev Hpre Hraise Hs Ht.
  pose proof (records_of_stream _ _ Hev) as Hrs.
  rewrite forallb_app in Hrs. apply andb_prop in Hrs as [Hpr Hrs].
  cbn [forallb] in Hrs. apply andb_prop in Hrs as [_ Hpost].
  destruct (for_each_total post fl1 w2 Hpost) as (ext & w3 & Hrun & Hext).
  eexists _, w3. split; [exact Hrun|].
  rewrite (handler_records _ _ _ _ Hev), for_each_app, Hpre.
  cbn [for_each]. unfold mbind at 1, M_bind at 1.
  rewrite (loop_body_run _ _ _ _ Hs), Hraise, Ht, Hrun. split; [done|].
  destruct (for_each_total pre [] w Hpr) as (ext1 & w1' & Hrun1 & Hext1).
  rewrite Hpre in Hrun1. injection Hrun1 as -> _. cbn [app].
  intros Hin. apply elem_of_app in Hin.
  assert (Hfi : failure_item (PDict [("itemIdentifier", seq)])).
  { destruct Hin as [Hin|Hin]; [by apply (proj1 (Forall_forall _ _) Hext1)
                                | by apply (proj1 (Forall_forall _ _) Hext)]. }
  apply failure_item_truthy in Hfi. congruence.
Qed.

Lemma irrelevant_skipped r w :
  irrelevant r = true →
  stream_record r = true ∧ ProcessOrder.process_record topic_arn r w = (Ret (), w).
Proof.
  unfold irrelevant. intros H. apply andb_prop in H as [Hr H]. split; [done|].
  destruct (insert_or_modify r) eqn:Him.
  2:{ rewrite process_record_tagged; [by rewrite Him | done | intros; congruence]. }
  destruct (truthy (new_image_of r)) eqn:Htr.
  2:{ rewrite process_record_tagged; [by rewrite Him, Htr | done | intros; congruence]. }
  cbn [negb orb] in H. rewrite !andb_true_iff in H. destruct H as [[Ho Hs] H].
  rewrite process_record_tagged by done. rewrite Him, Htr. cbn [negb].
  destruct (negb (truthy _)); [done|]. cbn [orb] in H. by rewrite H.
Qed.

(** C5. An entry whose event kind is not insert/update, or whose image is
    absent, or whose image has no orderId, or whose image status is not NEW:
    its loop turn leaves the world and the failure list as they were, so a
    batch with the entry gives what the batch without it gives. *)
Theorem irrelevant_entry_noop r :
  irrelevant r = true →
  (∀ batch_item_failures w,
     ProcessOrder.loop_body topic_arn batch_item_failures r w = (Ret batch_item_failures, w)) ∧
  (∀ pre post event event' context w,
     records_of event = Some (pre ++ r :: post) →
     records_of event' = Some (pre ++ post) →
     ProcessOrder.handler topic_arn event context w =
     ProcessOrder.handler topic_arn event' context w).
Proof.
  intros Hirr.
  assert (Hturn : ∀ acc w, ProcessOrder.loop_body topic_arn acc r w = (Ret acc, w)).
  { intros acc w. destruct (irrelevant_skipped r w Hirr) as [Hr Hrun].
    destruct (stream_record_sequence_number r Hr) as [seq Hs].
    by rewrite (loop_body_run _ _ _ _ Hs), Hrun. }
  split; [done|].
  intros pre post event event' context w Hev Hev'.
  rewrite (handler_records _ _ _ _ Hev), (handler_records _ _ _ _ Hev'), !for_each_app.
  destruct (for_each pre _ _ _) as [[fl1|e] w1]; [|done].
  cbn [for_each]. unfold mbind at 1, M_bind at 1. by rewrite Hturn.
Qed.
End Stream.
(** ** The invariant of the table *)


Section Keeps.
Variable P : gmap string (gmap string pyval) → Prop.

Lemma keeps_ret {A} (a : A) : keeps P (mret a).
Proof. by intros w. Qed.

Lemma keeps_raise {A} e : keeps P (@raise A e).
Proof. by intros w. Qed.

Lemma keeps_lift {A} (r : result A) : keeps P (lift r).
Proof. by intros w. Qed.

Lemma keeps_bind {A B} (m : M A) (k : A → M B) :
  keeps P m → (∀ a, keeps P (k a)) → keeps P (m ≫= k).
Proof.
  intros Hm Hk w Hw. unfold mbind, M_bind. specialize (Hm w Hw).
  destruct (m w) as [[a|e] w']; [by apply Hk | done].
Qed.

Lemma keeps_try {A} (m : M A) (h : exn → M A) :
  keeps P m → (∀ e, keeps P (h e)) → keeps P (try_except m h).
Proof.
  intros Hm Hh w Hw. unfold try_except. specialize (Hm w Hw).
  destruct (m w) as [[a|e] w']; [done | by apply Hh].
Qed.

Lemma keeps_for_each {A S} (body : S → A → M S) xs :
  (∀ acc x, keeps P (body acc x)) → ∀ acc, keeps P (for_each xs acc body).
Proof.
  intros Hb. induction xs as [|x xs IH]; intros acc; [apply keeps_ret|].
  cbn [for_each]. apply keeps_bind; [apply Hb | apply IH].
Qed.

Lemma keeps_now `{Runtime} : keeps P datetime_now.
Proof. by intros w. Qed.

Lemma keeps_service_call c sem :
  (∀ t t', P t → sem t = inl t' → P t') → keeps P (service_call c sem).
Proof.
  intros Hsem w Hw. unfold service_call.
  destruct (head (faults w)) as [[f|]|]; [done| |];
    (destruct (sem (table w)) as [t'|e] eqn:Hs; [by apply (Hsem (table w)) | done]).
Qed.
End Keeps.

Lemma inv_table_insert k it t : inv_table t → inv_item it → inv_table (<[k := it]> t).
Proof.
  intros Ht Hit k' it'. rewrite lookup_insert. case_decide.
  - by intros [= <-].
  - apply Ht.
Qed.

Lemma inv_item_processed ts it : inv_item (processed ts it).
Proof.
  unfold inv_item, processed. rewrite lookup_insert_eq.
  rewrite lookup_insert_ne by done. rewrite lookup_insert_eq. by split.
Qed.

Lemma inv_item_new `{Runtime} ttl order_id snack_type now :
  inv_item (stored (CreateOrder.order_item ttl order_id snack_type now)).
Proof.
  unfold inv_item, stored, CreateOrder.order_item. cbn [list_to_map foldr uncurry curry fst snd].
  rewrite !lookup_insert_ne by done. rewrite lookup_empty.
  rewrite lookup_insert_eq. split; [by intros [? ?] | done].
Qed.

Section Invariant.
Context `{RT : Runtime}.
Variable ttl_days : Z.
Variable topic_arn : string.

Lemma put_item_keeps order_id snack_type now :
  keeps inv_table (put_item (CreateOrder.order_item ttl_days order_id snack_type now)).
Proof.
  apply keeps_service_call. intros t t' Ht.
  destruct (_ ≫= key_of) as [k|]; [|done].
  destruct (t !! k); [done|]. intros [= <-].
  apply inv_table_insert; [done | apply inv_item_new].
Qed.

Lemma update_item_keeps key ts : keeps inv_table (update_item key ts).
Proof.
  apply keeps_service_call. intros t t' Ht.
  destruct (key_of key) as [k|]; [|done].
  destruct (t !! k) as [it|]; [|done].
  destruct (eq_str _ _); [|done]. intros [= <-].
  apply inv_table_insert; [done | apply inv_item_processed].
Qed.

Lemma publish_keeps topic message subject : keeps inv_table (publish topic message subject).
Proof. apply keeps_service_call. by intros t t' Ht [= <-]. Qed.

Ltac keeps_step :=
  lazymatch goal with
  | |- keeps _ (mret _) => apply keeps_ret
  | |- keeps _ (raise _) => apply keeps_raise
  | |- keeps _ (lift _) => apply keeps_lift
  | |- keeps _ datetime_now => apply keeps_now
  | |- keeps _ (put_item _) => apply put_item_keeps
  | |- keeps _ (update_item _ _) => apply update_item_keeps
  | |- keeps _ (publish _ _ _) => apply publish_keeps
  | |- keeps _ (try_except _ _) => apply keeps_try
  | |- keeps _ (mbind _ _) => apply keeps_bind
  | |- keeps _ (for_each _ _ _) => apply keeps_for_each
  | |- keeps _ (if ?c then _ else _) => destruct c
  | |- keeps _ (match ?e with _ => _ end) => destruct e
  | |- ∀ _, _ => intros
  end.

Lemma create_handler_keeps event context :
  keeps inv_table (CreateOrder.handler ttl_days event context).
Proof. unfold CreateOrder.handler, py_get. repeat keeps_step. Qed.

Lemma process_handler_keeps event context :
  keeps inv_table (ProcessOrder.handler topic_arn event context).
Proof.
  unfold ProcessOrder.handler, ProcessOrder.loop_body, ProcessOrder.process_record,
    ProcessOrder.transition, py_get, py_iter.
  repeat keeps_step.
Qed.

(** C8. Both handlers keep the invariant that processedAt is present iff the
    status is PROCESSED: the intake handler stores records with status NEW
    and no processedAt, the stream processor sets the two attributes in one
    update, and every record of every reachable table satisfies it. *)
Theorem processed_at_iff_processed :
  (∀ event context w,
     inv_table (table w) →
     inv_table (table (snd (CreateOrder.handler ttl_days event context w)))) ∧
  (∀ event context w,
     inv_table (table w) →
     inv_table (table (snd (ProcessOrder.handler topic_arn event context w)))) ∧
  (∀ order_id snack_type now,
     stored (CreateOrder.order_item ttl_days order_id snack_type now) !! "status"
       = Some (PStr "NEW") ∧
     stored (CreateOrder.order_item ttl_days order_id snack_type now) !! "processedAt"
       = None) ∧
  (∀ processed_at it,
     processed processed_at it !! "status" = Some (PStr "PROCESSED") ∧
     processed processed_at it !! "processedAt" = Some (PStr processed_at)) ∧
  (∀ w k it,
     reachable ttl_days topic_arn w → table w !! k = Some it →
     (is_Some (it !! "processedAt") ↔ it !! "status" = Some (PStr "PROCESSED"))).
Proof.
  split; [intros; by apply create_handler_keeps|].
  split; [intros; by apply process_handler_keeps|].
  split.
  { intros. unfold stored, CreateOrder.order_item.
    cbn [list_to_map foldr uncurry curry fst snd]. split.
    - rewrite !lookup_insert_ne by done. by rewrite lookup_insert_eq.
    - rewrite !lookup_insert_ne by done. by rewrite lookup_empty. }
  split.
  { intros. unfold processed. split.
    - rewrite lookup_insert_ne by done. by rewrite lookup_insert_eq.
    - by rewrite lookup_insert_eq. }
  intros w k it Hreach. revert k it. change (inv_table (table w)).
  induction Hreach as [tr fs n | w event context _ IH | w event context _ IH | w fs _ IH].
  - intros k it. cbn [table]. by rewrite lookup_empty.
  - by apply create_handler_keeps.
  - by apply process_handler_keeps.
  - done.
Qed.
End Invariant.


(** * Further properties of the handlers *)

Lemma non_empty_str_inv o : non_empty_str o = true → ∃ s, o = Some (PStr s) ∧ s ≠ "".
Proof.
  destruct o as [[| | |s| |]|]; try done. simpl. intros H. exists s. split; [done|].
  intros ->. done.
Qed.

Section IntakeMore.
Context `{RT : Runtime}.
Variable ttl_days : Z.

(** Every request is either answered on the spot, the world untouched, or
    valid. *)
Lemma intake_early_or_valid event context w :
  (∃ r, CreateOrder.handler ttl_days event context w = (Ret r, w) ∧
        (r = CreateOrder.invalid_order_id ∨ r = CreateOrder.invalid_snack_type ∨
         r = CreateOrder.invalid_json ∨ r = CreateOrder.internal_error))
  ∨ (∃ body oid snack, valid_request event body oid snack).
Proof.
  destruct (CreateOrder.payload event) as [v|e] eqn:Hp.
  - destruct v as [| | | | |body].
    1-5: left; exists CreateOrder.internal_error; split; [|tauto];
      unfold CreateOrder.handler, py_get, get, try_except, mbind, M_bind, lift, mret, M_ret;
      by rewrite Hp.
    destruct (non_empty_str (dict_get "orderId" body)) eqn:Ho.
    + destruct (non_empty_str (dict_get "snackType" body)) eqn:Hs.
      * right. apply non_empty_str_inv in Ho as (oid & Ho & Hone).
        apply non_empty_str_inv in Hs as (snack & Hs & Hsne).
        by exists body, oid, snack.
      * left. exists CreateOrder.invalid_snack_type. split; [|tauto].
        unfold CreateOrder.handler, py_get, get, try_except, mbind, M_bind, lift, mret, M_ret.
        rewrite Hp. cbv beta iota. rewrite !field_check. by rewrite Ho, Hs.
    + left. exists CreateOrder.invalid_order_id. split; [|tauto].
      unfold CreateOrder.handler, py_get, get, try_except, mbind, M_bind, lift, mret, M_ret.
      rewrite Hp. cbv beta iota. rewrite !field_check. by rewrite Ho.
  - left. exists (match e with
                  | JSONDecodeError => CreateOrder.invalid_json
                  | _ => CreateOrder.internal_error
                  end).
    split.
    + unfold CreateOrder.handler, py_get, get, try_except, mbind, M_bind, lift, mret, M_ret.
      rewrite Hp. by destruct e.
    + destruct e; tauto.
Qed.

(** What the one [put_item] of a valid request comes to. *)
Lemma valid_request_run event context body oid snack w :
  valid_request event body oid snack →
  let item := CreateOrder.order_item ttl_days (PStr oid) (PStr snack) (wall_clock (ticks w)) in
  (table w !! oid = None ∧
   CreateOrder.handler ttl_days event context w =
     (Ret (CreateOrder.created (PStr oid)),
      log_call (PutItem item) Done
        (set_table (<[oid := stored item]> (table w)) (drop_fault (tick w)))))
  ∨ (∃ e r,
       (r = CreateOrder.already_exists (PStr oid) ∨ r = CreateOrder.internal_error) ∧
       CreateOrder.handler ttl_days event context w =
         (Ret r, log_call (PutItem item) (Failed e) (drop_fault (tick w)))).
Proof.
  intros Hv item. rewrite (handler_valid _ _ _ _ _ _ _ Hv). cbv zeta. fold item.
  destruct Hv as (_ & _ & Hne & _).
  unfold put_item, service_call. cbn [faults tick table].
  assert (Hk : dict_get "orderId" item ≫= key_of = Some oid).
  { change (key_of (PStr oid) = Some oid). by apply key_of_str. }
  rewrite Hk.
  destruct (head (faults w)) as [[f|]|].
  - right. exists (exn_of_fault f). destruct f as [code|name]; cbn [exn_of_fault].
    + destruct (String.eqb code ConditionalCheckFailed); eexists; (split; [|reflexivity]); tauto.
    + eexists; (split; [|reflexivity]); tauto.
  - destruct (table w !! oid) as [it|] eqn:Hit.
    + right. eexists _, _. split; [|reflexivity]. tauto.
    + left. done.
  - destruct (table w !! oid) as [it|] eqn:Hit.
    + right. eexists _, _. split; [|reflexivity]. tauto.
    + left. done.
Qed.

(** X1. The intake handler never raises: whatever the event and whatever the
    storage does, it returns a response whose statusCode is 201, 200, 400 or
    500. *)
Theorem intake_always_answers event context w :
  ∃ r w',
    CreateOrder.handler ttl_days event context w = (Ret r, w') ∧
    (status_code r = Some (PInt 201) ∨ status_code r = Some (PInt 200) ∨
     status_code r = Some (PInt 400) ∨ status_code r = Some (PInt 500)).
Proof.
  destruct (intake_early_or_valid event context w) as [(r & Hrun & Hr) | (body & oid & snack & Hv)].
  - exists r, w. split; [done|].
    destruct Hr as [-> | [-> | [-> | ->]]]; cbn; tauto.
  - destruct (valid_request_run event context body oid snack w Hv)
      as [[_ Hrun] | (e & r & Hr & Hrun)].
    + eexists _, _. split; [exact Hrun|]. cbn; tauto.
    + eexists _, _. split; [exact Hrun|]. destruct Hr as [-> | ->]; cbn; tauto.
Qed.

(** X2. The intake handler makes at most one storage call, a [put_item], and
    never a publish; the table is changed only when the answer is 201, and
    then by exactly the one new record, under a key that was free. *)
Theorem intake_writes_only_with_201 event context w :
  ∃ r w',
    CreateOrder.handler ttl_days event context w = (Ret r, w') ∧
    ((status_code r = Some (PInt 201) ∧
      ∃ item k, dict_get "orderId" item = Some (PStr k) ∧ table w !! k = None ∧
                trace w' = trace w ++ [(PutItem item, Done)] ∧
                table w' = <[k := stored item]> (table w))
     ∨ (status_code r ≠ Some (PInt 201) ∧ table w' = table w ∧
        (trace w' = trace w ∨ ∃ item e, trace w' = trace w ++ [(PutItem item, Failed e)]))).
Proof.
  destruct (intake_early_or_valid event context w) as [(r & Hrun & Hr) | (body & oid & snack & Hv)].
  - exists r, w. split; [done|]. right.
    destruct Hr as [-> | [-> | [-> | ->]]]; (split; [done|]); tauto.
  - destruct (valid_request_run event context body oid snack w Hv)
      as [[Hfree Hrun] | (e & r & Hr & Hrun)].
    + eexists _, _. split; [exact Hrun|]. left. split; [done|].
      exists (CreateOrder.order_item ttl_days (PStr oid) (PStr snack) (wall_clock (ticks w))), oid.
      split; [reflexivity|]. done.
    + eexists _, _. split; [exact Hrun|]. right.
      split; [by destruct Hr as [-> | ->]|]. split; [done|]. right. by eexists _, _.
Qed.

(** X3. The intake handler never changes or removes a record that is already
    stored, whatever the request and whatever the storage does. *)
Theorem intake_never_overwrites event context w k it :
  table w !! k = Some it →
  table (snd (CreateOrder.handler ttl_days event context w)) !! k = Some it.
Proof.
  intros Hk.
  destruct (intake_early_or_valid event context w) as [(r & -> & _) | (body & oid & snack & Hv)];
    [done|].
  destruct (valid_request_run event context body oid snack w Hv)
    as [[Hfree ->] | (e & r & _ & ->)]; [|done].
  cbn [snd table log_call set_table]. rewrite lookup_insert_ne; [done|].
  intros ->. congruence.
Qed.

(** X4. An event with a string body that [json.loads] rejects is answered 400
    "Invalid JSON in request body"; the world is untouched: no storage call,
    no clock reading. *)
Theorem undecodable_body_rejected kvs s context w :
  dict_get "body" kvs = Some (PStr s) →
  json_loads s = None →
  CreateOrder.handler ttl_days (PDict kvs) context w =
    (Ret (PDict [("statusCode", PInt 400);
                 ("body", PStr (json_dumps (PDict
                    [("error", PStr "Invalid JSON in request body")])))]), w).
Proof.
  intros Hb Hl.
  unfold CreateOrder.handler, CreateOrder.payload, py_get, get, try_except,
    mbind, M_bind, result_bind, lift, mret, M_ret.
  rewrite Hb. cbn [default from_option id]. by rewrite Hl.
Qed.

(** X5. A valid request for an orderId that is already stored, whatever the
    status and the snackType of the stored record, is answered 200 "Order
    already exists" when the storage call is not disturbed; the table is as
    it was. *)
Theorem existing_order_is_kept event context body oid snack it w :
  valid_request event body oid snack →
  table w !! oid = Some it →
  calm w = true →
  ∃ w',
    CreateOrder.handler ttl_days event context w =
      (Ret (PDict [("statusCode", PInt 200);
                   ("body", PStr (json_dumps (PDict
                      [("message", PStr "Order already exists");
                       ("orderId", PStr oid)])))]), w') ∧
    table w' = table w ∧
    trace w' =
      trace w ++
      [(PutItem (CreateOrder.order_item ttl_days (PStr oid) (PStr snack) (wall_clock (ticks w))),
        Failed (ClientError ConditionalCheckFailed))].
Proof.
  intros Hv Hit Hc. rewrite (handler_valid _ _ _ _ _ _ _ Hv). cbv zeta.
  destruct Hv as (_ & _ & Hne & _).
  unfold put_item. rewrite service_call_calm by done.
  change (dict_get "orderId" (CreateOrder.order_item _ _ _ _) ≫= key_of)
    with (key_of (PStr oid)).
  rewrite key_of_str by done. cbn [table tick]. rewrite Hit.
  by eexists.
Qed.

(** X6. The record written for a valid request has exactly the attributes
    orderId, snackType, status, createdAt and expiresAt: the two strings of
    the request, status NEW, the ISO text of the clock reading, and the
    epoch seconds of that reading plus the retention days.  No other field
    of the request is stored. *)
Theorem stored_record_fields event context body oid snack w :
  valid_request event body oid snack →
  table w !! oid = None →
  calm w = true →
  ∃ w' it,
    CreateOrder.handler ttl_days event context w =
      (Ret (CreateOrder.created (PStr oid)), w') ∧
    table w' !! oid = Some it ∧
    dom it = {["orderId"; "snackType"; "status"; "createdAt"; "expiresAt"]} ∧
    it !! "orderId" = Some (PStr oid) ∧
    it !! "snackType" = Some (PStr snack) ∧
    it !! "status" = Some (PStr "NEW") ∧
    it !! "createdAt" = Some (PStr (isoformat (wall_clock (ticks w)))) ∧
    it !! "expiresAt" = Some (PInt (epoch_after_days (wall_clock (ticks w)) ttl_days)).
Proof.
  intros Hv Hfree Hc. rewrite (handler_valid _ _ _ _ _ _ _ Hv). cbv zeta.
  destruct Hv as (_ & _ & Hne & _).
  unfold put_item. rewrite service_call_calm by done.
  change (dict_get "orderId" (CreateOrder.order_item _ _ _ _) ≫= key_of)
    with (key_of (PStr oid)).
  rewrite key_of_str by done. cbn [table tick]. rewrite Hfree.
  eexists _, _. split; [reflexivity|].
  cbn [table log_call set_table]. split; [apply lookup_insert_eq|].
  unfold stored, CreateOrder.order_item.
  cbn [list_to_map foldr uncurry curry fst snd].
  split.
  { rewrite !dom_insert_L, dom_empty_L. set_solver. }
  split; [by rewrite lookup_insert_eq|].
  split; [rewrite lookup_insert_ne by done; by rewrite lookup_insert_eq|].
  split; [do 2 (rewrite lookup_insert_ne by done); by rewrite lookup_insert_eq|].
  split; [do 3 (rewrite lookup_insert_ne by done); by rewrite lookup_insert_eq|].
  do 4 (rewrite lookup_insert_ne by done). by rewrite lookup_insert_eq.
Qed.

(** X7. The two calling conventions are treated alike: two events whose
    payloads (the event itself, or the decoded string body) are objects with
    the same orderId and the same snackType entries get the same answer and
    leave the same world, whatever else they hold and whatever the context. *)
Theorem answer_depends_on_two_fields event event' context context' body body' w :
  CreateOrder.payload event = Ret (PDict body) →
  CreateOrder.payload event' = Ret (PDict body') →
  dict_get "orderId" body = dict_get "orderId" body' →
  dict_get "snackType" body = dict_get "snackType" body' →
  CreateOrder.handler ttl_days event context w =
  CreateOrder.handler ttl_days event' context' w.
Proof.
  intros Hp Hp' Ho Hs.
  unfold CreateOrder.handler, py_get, get, try_except, mbind, M_bind, lift.
  by rewrite Hp, Hp', Ho, Hs.
Qed.
End IntakeMore.


Lemma key_of_inv v k : key_of v = Some k → v = PStr k ∧ k ≠ "".
Proof.
  destruct v as [| | |s| |]; try done. unfold key_of.
  destruct (String.eqb s "") eqn:He; [done|]. intros [= ->].
  split; [done|]. by apply String.eqb_neq.
Qed.

Section StreamMore.
Context `{RT : Runtime}.
Variable topic_arn : string.

Lemma one_turn_refl w : one_turn topic_arn w w.
Proof. exists []. split; [by rewrite app_nil_r | constructor]. Qed.


Lemma transition_turn order_id now w :
  one_turn topic_arn w (snd (ProcessOrder.transition topic_arn order_id now w)).
Proof.
  unfold ProcessOrder.transition, try_except, mbind, M_bind, update_item, publish, service_call.
  destruct (head (faults w)) as [[f|]|] eqn:Hf.
  - destruct f as [code|name]; cbn [exn_of_fault];
      [destruct (String.eqb code ConditionalCheckFailed)|];
      (eexists; split; [reflexivity | constructor]).
  - destruct (key_of order_id) as [k|] eqn:Hk.
    2:{ change (String.eqb ValidationException ConditionalCheckFailed) with false.
        eexists; (split; [reflexivity | constructor]). }
    apply key_of_inv in Hk as [-> Hne].
    destruct (table w !! k) as [it|] eqn:Hit.
    2:{ rewrite String.eqb_refl. eexists; (split; [reflexivity | constructor]). }
    destruct (eq_str (default PNone (it !! "status")) "NEW") eqn:Hnew.
    2:{ rewrite String.eqb_refl. eexists; (split; [reflexivity | constructor]). }
    cbn [faults table trace log_call set_table drop_fault].
    destruct (head (tail (faults w))) as [[f|]|];
      [destruct f as [code|name]; cbn [exn_of_fault];
         [destruct (String.eqb code ConditionalCheckFailed)|] | |];
      (eexists; split;
        [cbn -[app]; rewrite <- app_assoc; reflexivity
        | cbn -[insert processed]; by constructor]).
  - destruct (key_of order_id) as [k|] eqn:Hk.
    2:{ change (String.eqb ValidationException ConditionalCheckFailed) with false.
        eexists; (split; [reflexivity | constructor]). }
    apply key_of_inv in Hk as [-> Hne].
    destruct (table w !! k) as [it|] eqn:Hit.
    2:{ rewrite String.eqb_refl. eexists; (split; [reflexivity | constructor]). }
    destruct (eq_str (default PNone (it !! "status")) "NEW") eqn:Hnew.
    2:{ rewrite String.eqb_refl. eexists; (split; [reflexivity | constructor]). }
    cbn [faults table trace log_call set_table drop_fault].
    destruct (head (tail (faults w))) as [[f|]|];
      [destruct f as [code|name]; cbn [exn_of_fault];
         [destruct (String.eqb code ConditionalCheckFailed)|] | |];
      (eexists; split;
        [cbn -[app]; rewrite <- app_assoc; reflexivity
        | cbn -[insert processed]; by constructor]).
Qed.

Lemma process_record_turn record w :
  one_turn topic_arn w (snd (ProcessOrder.process_record topic_arn record w)).
Proof.
  unfold ProcessOrder.process_record, py_get, mbind, M_bind, lift.
  destruct (get record "eventName" PNone) as [event_name|]; [|apply one_turn_refl].
  destruct (negb _); [apply one_turn_refl|].
  destruct (get record "dynamodb" (PDict [])) as [dyn|]; [|apply one_turn_refl].
  destruct (get dyn "NewImage" PNone) as [new_image|]; [|apply one_turn_refl].
  destruct (negb _); [apply one_turn_refl|].
  destruct (get new_image "orderId" (PDict [])) as [a|]; [|apply one_turn_refl].
  destruct (get a "S" PNone) as [order_id|]; [|apply one_turn_refl].
  destruct (get new_image "status" (PDict [])) as [b|]; [|apply one_turn_refl].
  destruct (get b "S" PNone) as [status|]; [|apply one_turn_refl].
  destruct (negb _); [apply one_turn_refl|].
  destruct (negb _); [apply one_turn_refl|].
  cbn [datetime_now].
  apply (transition_turn order_id (wall_clock (ticks w)) (tick w)).
Qed.

Lemma loop_body_turn acc record w :
  one_turn topic_arn w (snd (ProcessOrder.loop_body topic_arn acc record w)).
Proof.
  unfold ProcessOrder.loop_body, mbind, M_bind, lift, try_except.
  destruct (ProcessOrder.sequence_number_of record) as [seq|]; [|apply one_turn_refl].
  pose proof (process_record_turn record w) as H.
  destruct (ProcessOrder.process_record topic_arn record w) as [[[]|e] w']; [done|].
  by destruct (truthy seq).
Qed.

Lemma for_each_turns rs : ∀ acc w,
  ∃ tr,
    trace (snd (for_each rs acc (ProcessOrder.loop_body topic_arn) w)) = trace w ++ tr ∧
    turns topic_arn (table w) tr
      (table (snd (for_each rs acc (ProcessOrder.loop_body topic_arn) w))).
Proof.
  induction rs as [|r rs IH]; intros acc w.
  - exists []. split; [by rewrite app_nil_r | constructor].
  - cbn [for_each]. unfold mbind, M_bind.
    destruct (loop_body_turn acc r w) as (tr1 & Htr1 & Hturn).
    destruct (ProcessOrder.loop_body topic_arn acc r w) as [[acc'|e] w1]; cbn [snd] in *.
    + destruct (IH acc' w1) as (tr2 & Htr2 & Hturns).
      exists (tr1 ++ tr2). split.
      * by rewrite Htr2, Htr1, app_assoc.
      * by econstructor.
    + exists (tr1 ++ []). split.
      * by rewrite app_nil_r.
      * econstructor; [done | constructor].
Qed.

Lemma handler_turns event context w :
  ∃ tr,
    trace (snd (ProcessOrder.handler topic_arn event context w)) = trace w ++ tr ∧
    turns topic_arn (table w) tr
      (table (snd (ProcessOrder.handler topic_arn event context w))).
Proof.
  unfold ProcessOrder.handler, py_get, py_iter, mbind, M_bind, lift.
  destruct (get event "Records" (PList [])) as [records|];
    [|exists []; split; [by rewrite app_nil_r | constructor]].
  destruct (iter records) as [rs|];
    [|exists []; split; [by rewrite app_nil_r | constructor]].
  destruct (for_each_turns rs [] w) as (tr & Htr & Hturns).
  exists tr. by destruct (for_each rs [] _ w) as [[fl|e] w'].
Qed.

(** X8. Whatever the event and whatever the services do, all the stream
    processor adds to the trace is a sequence of turns, each one nothing, a
    failed update, or a successful update of an order stored with status NEW
    followed at once by the publish of [{orderId, status: PROCESSED}] for
    that order under the subject "Order Processed".  So it never writes a
    new item, and never publishes without having just made the update. *)
Theorem processor_only_updates_and_notifies event context w :
  ∃ tr,
    trace (snd (ProcessOrder.handler topic_arn event context w)) = trace w ++ tr ∧
    turns topic_arn (table w) tr
      (table (snd (ProcessOrder.handler topic_arn event context w))).
Proof. apply handler_turns. Qed.

Lemma turn_records t tr t' k :
  turn topic_arn t tr t' →
  (t !! k = None → t' !! k = None) ∧
  (∀ it, t !! k = Some it →
     ∃ it', t' !! k = Some it' ∧
       (∀ a, a ≠ "status" → a ≠ "processedAt" → it' !! a = it !! a) ∧
       (eq_str (default PNone (it !! "status")) "NEW" = false → it' = it)).
Proof.
  intros [t0 | t0 key ts e | t0 k0 it0 ts o Hk0 Hnew]; try (split; [done | by eauto]).
  destruct (decide (k0 = k)) as [->|Hne].
  - split; [congruence|]. intros it Hit. rewrite Hk0 in Hit. injection Hit as ->.
    exists (processed ts it). rewrite lookup_insert_eq. split; [done|]. split.
    + intros a Ha1 Ha2. unfold processed. by rewrite !lookup_insert_ne.
    + congruence.
  - rewrite lookup_insert_ne by done. split; [done | by eauto].
Qed.

Lemma turns_records t tr t' k :
  turns topic_arn t tr t' →
  (t !! k = None → t' !! k = None) ∧
  (∀ it, t !! k = Some it →
     ∃ it', t' !! k = Some it' ∧
       (∀ a, a ≠ "status" → a ≠ "processedAt" → it' !! a = it !! a) ∧
       (eq_str (default PNone (it !! "status")) "NEW" = false → it' = it)).
Proof.
  induction 1 as [t | t1 tr1 t2 tr2 t3 Hturn _ [IHnone IHsome]]; [split; [done | by eauto]|].
  destruct (turn_records _ _ _ k Hturn) as [Hnone Hsome]. split; [by auto|].
  intros it Hit. destruct (Hsome it Hit) as (it2 & Hit2 & Hattrs & Hfinal).
  destruct (IHsome it2 Hit2) as (it3 & Hit3 & Hattrs3 & Hfinal3).
  exists it3. split; [done|]. split.
  - intros a Ha1 Ha2. by rewrite Hattrs3, Hattrs.
  - intros Hnn. specialize (Hfinal Hnn). subst it2. by apply Hfinal3.
Qed.

(** X9. The stream processor neither creates nor deletes records, and of a
    stored record it can change only status and processedAt: every other
    attribute (orderId, snackType, createdAt, expiresAt) is as it was. *)
Theorem processor_keeps_records event context w k :
  (table w !! k = None →
   table (snd (ProcessOrder.handler topic_arn event context w)) !! k = None) ∧
  (∀ it, table w !! k = Some it →
     ∃ it',
       table (snd (ProcessOrder.handler topic_arn event context w)) !! k = Some it' ∧
       ∀ a, a ≠ "status" → a ≠ "processedAt" → it' !! a = it !! a).
Proof.
  destruct (handler_turns event context w) as (tr & _ & Hturns).
  destruct (turns_records _ _ _ k Hturns) as [Hnone Hsome]. split; [done|].
  intros it Hit. destruct (Hsome it Hit) as (it' & Hit' & Hattrs & _). by exists it'.
Qed.

(** X10. A stored record whose status is not NEW is left exactly as it is by
    the stream processor, whatever the batch: a PROCESSED order is never
    processed again and its processedAt is never rewritten. *)
Theorem processed_record_is_final event context w k it :
  table w !! k = Some it →
  eq_str (default PNone (it !! "status")) "NEW" = false →
  table (snd (ProcessOrder.handler topic_arn event context w)) !! k = Some it.
Proof.
  intros Hit Hnn. destruct (handler_turns event context w) as (tr & _ & Hturns).
  destruct (turns_records _ _ _ k Hturns) as [_ Hsome].
  destruct (Hsome it Hit) as (it' & Hit' & _ & Hfinal). by rewrite Hit', (Hfinal Hnn).
Qed.

Lemma identifier_of_seq r seq :
  ProcessOrder.sequence_number_of r = Ret seq →
  identifier_of r = ProcessOrder.item_failure seq.
Proof. unfold identifier_of. by intros ->. Qed.

Lemma for_each_failures rs : ∀ acc w,
  forallb stream_record rs = true →
  ∃ ext w',
    for_each rs acc (ProcessOrder.loop_body topic_arn) w = (Ret (acc ++ ext), w') ∧
    sublist ext (map identifier_of rs).
Proof.
  induction rs as [|r rs IH]; intros acc w Hrs.
  - exists [], w. by rewrite app_nil_r.
  - cbn [forallb] in Hrs. apply andb_prop in Hrs as [Hr Hrs].
    destruct (stream_record_sequence_number r Hr) as [seq Hs].
    cbn [for_each map]. unfold mbind, M_bind.
    rewrite (loop_body_run _ _ _ _ _ Hs), (identifier_of_seq _ _ Hs).
    destruct (ProcessOrder.process_record _ _ _) as [[[]|e] w1].
    + destruct (IH acc w1 Hrs) as (ext & w' & -> & Hsub).
      exists ext, w'. split; [done|]. by apply sublist_cons.
    + destruct (truthy seq).
      * destruct (IH (acc ++ [ProcessOrder.item_failure seq]) w1 Hrs) as (ext & w' & -> & Hsub).
        exists (ProcessOrder.item_failure seq :: ext), w'.
        split; [by rewrite <- app_assoc|]. by apply sublist_skip.
      * destruct (IH acc w1 Hrs) as (ext & w' & -> & Hsub).
        exists ext, w'. split; [done|]. by apply sublist_cons.
Qed.

(** X11. On a stream batch event the returned failure list is a sublist of
    the identifiers of the batch's entries, in batch order: each entry is
    reported at most once and there are no more failures than entries. *)
Theorem failures_follow_batch event context rs w :
  records_of event = Some rs →
  ∃ fl w',
    ProcessOrder.handler topic_arn event context w =
      (Ret (PDict [("batchItemFailures", PList fl)]), w') ∧
    sublist fl (map identifier_of rs) ∧
    (length fl ≤ length rs)%nat.
Proof.
  intros Hev. pose proof (records_of_stream _ _ Hev) as Hrs.
  destruct (for_each_failures rs [] w Hrs) as (fl & w' & Hrun & Hsub).
  exists fl, w'. rewrite (handler_records _ _ _ _ _ Hev), Hrun.
  split; [done|]. split; [done|].
  apply sublist_length in Hsub. by rewrite length_map in Hsub.
Qed.

Lemma not_stream_record_raises r :
  stream_record r = false → ProcessOrder.sequence_number_of r = Raise AttributeError.
Proof.
  unfold ProcessOrder.sequence_number_of, mbind, result_bind, get.
  destruct r as [| | | |?|kv]; try done. simpl.
  by destruct (dict_get "dynamodb" kv) as [[| | | |?|d]|].
Qed.

(** X12. The sequence number is read outside the [try]: when [Records] is a
    list whose entries before [r] are well-formed and [r] is not an object
    with an absent or object [dynamodb] member, the handler raises
    AttributeError to its caller, the entries before [r] having been handled
    and those after it not. *)
Theorem malformed_record_raises event context pre r post w :
  get event "Records" (PList []) = Ret (PList (pre ++ r :: post)) →
  forallb stream_record pre = true →
  stream_record r = false →
  ∃ fl1 w1,
    for_each pre [] (ProcessOrder.loop_body topic_arn) w = (Ret fl1, w1) ∧
    ProcessOrder.handler topic_arn event context w = (Raise AttributeError, w1).
Proof.
  intros Hev Hpre Hr.
  destruct (for_each_total topic_arn pre [] w Hpre) as (fl1 & w1 & Hrun & _).
  eexists _, w1. split; [exact Hrun|].
  unfold ProcessOrder.handler, py_get, py_iter, lift. unfold mbind at 1, M_bind at 1.
  rewrite Hev. unfold mbind at 1, M_bind at 1. cbn [iter].
  unfold mbind at 1, M_bind at 1. rewrite for_each_app, Hrun.
  cbn [for_each]. unfold mbind at 1, M_bind at 1.
  unfold ProcessOrder.loop_body at 1, lift at 1. unfold mbind at 1, M_bind at 1.
  by rewrite (not_stream_record_raises r Hr).
Qed.

(** X13. The inner [except] covers the publish too: when the update goes
    through and the publish fails with a ClientError whose code is
    ConditionalCheckFailedException, the entry is not reported as failed,
    although the record is PROCESSED and no notification was sent. *)
Theorem publish_conditional_failure_not_reported r k event context w rest :
  new_order_entry r k = true →
  records_of event = Some [r] →
  stored_new w k = true →
  faults w = None :: Some (ServiceFault ConditionalCheckFailed) :: rest →
  ∃ it w1,
    table w !! k = Some it ∧
    ProcessOrder.handler topic_arn event context w =
      (Ret (PDict [("batchItemFailures", PList [])]), w1) ∧
    table w1 = <[k := processed (isoformat (wall_clock (ticks w))) it]> (table w) ∧
    trace w1 =
      trace w ++
      [(UpdateItem (PStr k) (isoformat (wall_clock (ticks w))), Done);
       (Publish topic_arn
          (json_dumps (PDict [("orderId", PStr k); ("status", PStr "PROCESSED")]))
          "Order Processed", Failed (ClientError ConditionalCheckFailed))].
Proof.
  intros Hr Hev Hn Hf.
  destruct (stream_record_sequence_number r (new_order_entry_stream r k Hr)) as [seq Hs].
  destruct (new_order_entry_run topic_arn r k w Hr) as [Hk _].
  assert (Hc : calm (tick w) = true) by (unfold calm; cbn [faults tick]; by rewrite Hf).
  destruct (update_item_new k (isoformat (wall_clock (ticks w))) (tick w) Hc Hk Hn)
    as (it & Hit & Hup).
  exists it. eexists. split; [done|].
  rewrite (handler_records _ _ _ _ _ Hev). cbn [for_each]. unfold mbind, M_bind.
  rewrite (new_order_turn _ _ _ _ _ _ Hr Hs).
  unfold ProcessOrder.transition, try_except, mbind, M_bind. rewrite Hup.
  unfold publish. erewrite service_call_fault
    by (cbn [faults log_call set_table drop_fault tick]; by rewrite Hf).
  cbn [exn_of_fault]. rewrite String.eqb_refl. cbn [mret M_ret].
  split; [reflexivity|]. split; [reflexivity|].
  cbn [trace log_call set_table drop_fault tick]. by rewrite <- app_assoc.
Qed.

(** X14. An insert/update entry with image status NEW for an order that is
    not stored, or stored with another status, with the storage call not
    disturbed: the update fails on its condition, the table is as it was, no
    record is created, nothing is published and nothing is reported. *)
Theorem entry_for_unavailable_order r k event context w :
  new_order_entry r k = true →
  records_of event = Some [r] →
  stored_new w k = false →
  calm w = true →
  ∃ w1,
    ProcessOrder.handler topic_arn event context w =
      (Ret (PDict [("batchItemFailures", PList [])]), w1) ∧
    table w1 = table w ∧
    trace w1 =
      trace w ++
      [(UpdateItem (PStr k) (isoformat (wall_clock (ticks w))),
        Failed (ClientError ConditionalCheckFailed))].
Proof.
  intros Hr Hev Hn Hc.
  destruct (stream_record_sequence_number r (new_order_entry_stream r k Hr)) as [seq Hs].
  destruct (new_order_entry_run topic_arn r k w Hr) as [Hk _].
  eexists.
  rewrite (handler_records _ _ _ _ _ Hev). cbn [for_each]. unfold mbind, M_bind.
  rewrite (new_order_turn _ _ _ _ _ _ Hr Hs).
  unfold ProcessOrder.transition, try_except, mbind, M_bind.
  rewrite update_item_not_new by done.
  rewrite String.eqb_refl. cbn [mret M_ret]. done.
Qed.

(** X15. The event built by the unit tests' [create_stream_event]: when the
    event name is INSERT or MODIFY, the order id is not empty and the status
    is NEW, the handler runs the transition of that order and reports the
    entry under "111" exactly when the transition raises; in every other
    case it returns an empty failure list and leaves the world untouched. *)
Theorem unit_test_event_handled order_id status event_name context w :
  ProcessOrder.handler topic_arn (create_stream_event order_id status event_name) context w =
    if (String.eqb event_name "INSERT" || String.eqb event_name "MODIFY")
       && negb (String.eqb order_id "") && String.eqb status "NEW"
    then
      match ProcessOrder.transition topic_arn (PStr order_id) (wall_clock (ticks w)) (tick w) with
      | (Ret _, w') => (Ret (PDict [("batchItemFailures", PList [])]), w')
      | (Raise _, w') =>
          (Ret (PDict [("batchItemFailures",
                        PList [PDict [("itemIdentifier", PStr "111")]])]), w')
      end
    else (Ret (PDict [("batchItemFailures", PList [])]), w).
Proof.
  unfold create_stream_event.
  unfold ProcessOrder.handler, py_get, py_iter, lift. unfold mbind at 1, M_bind at 1.
  cbn [get dict_get String.eqb Ascii.eqb Bool.eqb default from_option id].
  unfold mbind at 1, M_bind at 1. cbn [iter].
  unfold mbind at 1, M_bind at 1. cbn [for_each].
  unfold mbind at 1, M_bind at 1.
  unfold ProcessOrder.loop_body, ProcessOrder.sequence_number_of, lift.
  unfold mbind at 1, M_bind at 1.
  cbn [mbind result_bind get dict_get String.eqb Ascii.eqb Bool.eqb default from_option id].
  unfold try_except. unfold mbind at 1, M_bind at 1.
  unfold ProcessOrder.process_record, py_get, lift.
  unfold mbind at 1, M_bind at 1.
  cbn [get dict_get String.eqb Ascii.eqb Bool.eqb default from_option id eq_str].
  destruct (String.eqb event_name "INSERT" || String.eqb event_name "MODIFY"); [|done].
  cbn [negb andb].
  unfold mbind, M_bind.
  cbn [get dict_get String.eqb Ascii.eqb Bool.eqb default from_option id eq_str truthy negb].
  destruct (String.eqb order_id ""); [done|]. cbn [negb andb].
  destruct (String.eqb status "NEW"); [|done]. cbn [negb datetime_now].
  by destruct (ProcessOrder.transition _ _ _ _) as [[[]|e] w'].
Qed.
End StreamMore.


Section Pipeline.
Context `{RT : Runtime}.
Variable ttl_days : Z.
Variable topic_arn : string.

Lemma new_item_is_new order_id snack_type now :
  eq_str (default PNone
            (stored (CreateOrder.order_item ttl_days order_id snack_type now) !! "status"))
    "NEW" = true.
Proof.
  unfold stored, CreateOrder.order_item. cbn [list_to_map foldr uncurry curry fst snd].
  do 2 (rewrite lookup_insert_ne by done). by rewrite lookup_insert_eq.
Qed.

(** X16. The two handlers in sequence, with no failure injected: a valid
    request for a free orderId is answered 201, and the insert/update entry
    for it is then handled without failure; the stored record is the new
    record with status PROCESSED and processedAt set to the second clock
    reading, and the trace gains, in this order, the put, the update and one
    publish. *)
Theorem order_is_created_then_processed request context body k snack r event context' w :
  valid_request request body k snack →
  new_order_entry r k = true →
  records_of event = Some [r] →
  table w !! k = None →
  quiet w = true →
  let item := CreateOrder.order_item ttl_days (PStr k) (PStr snack) (wall_clock (ticks w)) in
  let processed_at := isoformat (wall_clock (S (ticks w))) in
  ∃ w1 w2,
    CreateOrder.handler ttl_days request context w =
      (Ret (PDict [("statusCode", PInt 201);
                   ("body", PStr (json_dumps (PDict
                      [("message", PStr "Order created successfully");
                       ("orderId", PStr k);
                       ("status", PStr "NEW")])))]), w1) ∧
    ProcessOrder.handler topic_arn event context' w1 =
      (Ret (PDict [("batchItemFailures", PList [])]), w2) ∧
    table w2 = <[k := processed processed_at (stored item)]> (table w) ∧
    trace w2 =
      trace w ++
      [(PutItem item, Done);
       (UpdateItem (PStr k) processed_at, Done);
       (Publish topic_arn
          (json_dumps (PDict [("orderId", PStr k); ("status", PStr "PROCESSED")]))
          "Order Processed", Done)].
Proof.
  intros Hv Hr Hev Hfree Hq item processed_at.
  pose proof (first_call ttl_days request context body k snack w Hv Hfree Hq) as Hrun1.
  cbv zeta in Hrun1. fold item in Hrun1.
  set (w1 := log_call (PutItem item) Done _) in Hrun1.
  assert (Hq1 : quiet w1 = true) by (apply (quiet_drop (tick w)), Hq).
  assert (Hn : stored_new w1 k = true).
  { unfold stored_new, w1. cbn [table log_call set_table drop_fault tick].
    rewrite lookup_insert_eq. apply new_item_is_new. }
  destruct (stream_record_sequence_number r (new_order_entry_stream r k Hr)) as [seq Hs].
  destruct (new_order_entry_run topic_arn r k w1 Hr) as [Hk _].
  destruct (transition_new topic_arn k (wall_clock (ticks w1)) (tick w1)) as (it & Hit & Ht);
    [by apply quiet_calm | by apply quiet_calm, quiet_drop | done | done |].
  assert (Hit' : it = stored item).
  { unfold w1 in Hit. cbn [table log_call set_table drop_fault tick] in Hit.
    rewrite lookup_insert_eq in Hit. congruence. }
  subst it.
  eexists w1, _. split; [exact Hrun1|].
  rewrite (handler_records _ _ _ _ _ Hev). cbn [for_each]. unfold mbind, M_bind.
  rewrite (new_order_turn _ _ _ _ _ _ Hr Hs), Ht. cbn [mret M_ret].
  split; [reflexivity|]. split.
  - unfold w1. cbn [table log_call set_table drop_fault tick ticks].
    by rewrite insert_insert_eq.
  - unfold w1. cbn [trace log_call set_table drop_fault tick ticks].
    by rewrite <- !app_assoc.
Qed.

Lemma duplicates_skipped r k n : ∀ acc w,
  new_order_entry r k = true →
  stored_new w k = false →
  quiet w = true →
  ∃ w',
    for_each (replicate n r) acc (ProcessOrder.loop_body topic_arn) w = (Ret acc, w') ∧
    table w' = table w ∧
    publish_calls (trace w') = publish_calls (trace w).
Proof.
  induction n as [|n IH]; intros acc w Hr Hn Hq.
  - by exists w.
  - destruct (stream_record_sequence_number r (new_order_entry_stream r k Hr)) as [seq Hs].
    destruct (new_order_entry_run topic_arn r k w Hr) as [Hk _].
    cbn [replicate for_each]. unfold mbind, M_bind.
    rewrite (new_order_turn _ _ _ _ _ _ Hr Hs).
    unfold ProcessOrder.transition, try_except, mbind, M_bind.
    rewrite update_item_not_new; [| by apply quiet_calm | done | done].
    rewrite String.eqb_refl. cbn [mret M_ret].
    set (w1 := log_call _ _ _).
    destruct (IH acc w1 Hr) as (w' & Hrun & Ht & Hp); [done | by apply (quiet_drop (tick w)) |].
    exists w'. split; [done|]. split; [by rewrite Ht|].
    rewrite Hp. unfold w1. cbn [trace log_call set_table drop_fault tick].
    rewrite publish_calls_app. cbn. by rewrite app_nil_r.
Qed.

(** X17. A batch holding the same insert/update entry [n + 1] times, for an
    order stored with status NEW and with no failure injected: the order is
    updated once, exactly one notification is published, and no entry is
    reported. *)
Theorem duplicates_in_batch_publish_once r k n event context w :
  new_order_entry r k = true →
  records_of event = Some (replicate (S n) r) →
  stored_new w k = true →
  quiet w = true →
  ∃ it w',
    table w !! k = Some it ∧
    ProcessOrder.handler topic_arn event context w =
      (Ret (PDict [("batchItemFailures", PList [])]), w') ∧
    table w' = <[k := processed (isoformat (wall_clock (ticks w))) it]> (table w) ∧
    publish_calls (trace w') =
      publish_calls (trace w) ++
      [(Publish topic_arn
          (json_dumps (PDict [("orderId", PStr k); ("status", PStr "PROCESSED")]))
          "Order Processed", Done)].
Proof.
  intros Hr Hev Hn Hq.
  destruct (stream_record_sequence_number r (new_order_entry_stream r k Hr)) as [seq Hs].
  destruct (new_order_entry_run topic_arn r k w Hr) as [Hk _].
  destruct (transition_new topic_arn k (wall_clock (ticks w)) (tick w)) as (it & Hit & Ht);
    [by apply quiet_calm | by apply quiet_calm, quiet_drop | done | done |].
  set (w1 := log_call _ _ _) in Ht.
  destruct (duplicates_skipped r k n [] w1 Hr) as (w' & Hrun & Htable & Hp).
  { unfold stored_new, w1. cbn [table log_call set_table drop_fault tick].
    rewrite lookup_insert_eq. apply processed_not_new. }
  { apply (quiet_drop (drop_fault (tick w))), (quiet_drop (tick w)), Hq. }
  exists it, w'. split; [done|].
  rewrite (handler_records _ _ _ _ _ Hev). cbn [replicate for_each]. unfold mbind at 1, M_bind at 1.
  rewrite (new_order_turn _ _ _ _ _ _ Hr Hs), Ht, Hrun.
  split; [reflexivity|]. split; [by rewrite Htable|].
  rewrite Hp. unfold w1. cbn [trace log_call set_table drop_fault tick].
  rewrite !publish_calls_app. cbn. by rewrite app_nil_r.
Qed.
End Pipeline.

(** * Worked examples *)

#[local] Existing Instance sample_runtime.

Lemma idempotent_create_witness :
  ∃ w',
    repeat_run 3 (CreateOrder.handler 7 order_request PNone) empty_world =
      (Ret [CreateOrder.created (PStr "order-123");
            CreateOrder.already_exists (PStr "order-123");
            CreateOrder.already_exists (PStr "order-123")], w') ∧
    size (table w') = 1%nat.
Proof.
  destruct (idempotent_create 7 order_request PNone
              [("orderId", PStr "order-123"); ("snackType", PStr "crisps")]
              "order-123" "crisps" empty_world 2)
    as (w' & Hrun & _ & Hsize & _).
  - repeat split; (reflexivity || discriminate).
  - reflexivity.
  - reflexivity.
  - exists w'. split; [exact Hrun | exact Hsize].
Defined.

Lemma invalid_request_rejected_witness :
  ∃ field,
    CreateOrder.handler 7 (PDict [("orderId", PInt 12345); ("snackType", PStr "crisps")])
      PNone empty_world =
      (Ret (PDict [("statusCode", PInt 400);
                   ("body", PStr (dumps (PDict
                      [("error", PStr ("Missing or invalid " +:+ field
                                       +:+ " (must be a non-empty string)"))])))]),
       empty_world).
Proof.
  destruct (invalid_request_rejected 7
              (PDict [("orderId", PInt 12345); ("snackType", PStr "crisps")]) PNone
              [("orderId", PInt 12345); ("snackType", PStr "crisps")] empty_world)
    as (field & _ & Hrun).
  - reflexivity.
  - left. reflexivity.
  - exists field. exact Hrun.
Defined.

Lemma storage_failure_is_internal_error_witness :
  ∃ w',
    CreateOrder.handler 7 order_request PNone
      (mkWorld ∅ [] [Some (ServiceFault "ServiceUnavailable")] 0) =
      (Ret (PDict [("statusCode", PInt 500);
                   ("body", PStr (dumps (PDict [("error", PStr "Internal server error")])))]),
       w') ∧
    table w' = ∅.
Proof.
  destruct (storage_failure_is_internal_error 7 order_request PNone
              [("orderId", PStr "order-123"); ("snackType", PStr "crisps")]
              "order-123" "crisps"
              (mkWorld ∅ [] [Some (ServiceFault "ServiceUnavailable")] 0)
              (ServiceFault "ServiceUnavailable") [])
    as (w' & Hrun & Htable & _).
  - repeat split; (reflexivity || discriminate).
  - reflexivity.
  - discriminate.
  - exists w'. split; [exact Hrun | exact Htable].
Defined.

Lemma single_transition_witness :
  ∃ w1 w2,
    ProcessOrder.handler sample_topic
      (batch [stream_entry "INSERT" (Some "111") "order-123" "NEW"]) PNone world_with_order =
      (Ret (PDict [("batchItemFailures", PList [])]), w1) ∧
    ProcessOrder.handler sample_topic
      (batch [stream_entry "INSERT" (Some "111") "order-123" "NEW"]) PNone w1 =
      (Ret (PDict [("batchItemFailures", PList [])]), w2) ∧
    table w2 = table w1.
Proof.
  destruct (single_transition sample_topic
              (stream_entry "INSERT" (Some "111") "order-123" "NEW") "order-123"
              (batch [stream_entry "INSERT" (Some "111") "order-123" "NEW"])
              PNone PNone world_with_order)
    as (it & w1 & w2 & _ & Hrun1 & _ & _ & Hrun2 & Htable & _).
  - reflexivity.
  - reflexivity.
  - reflexivity.
  - reflexivity.
  - exists w1, w2. split; [exact Hrun1 | split; [exact Hrun2 | exact Htable]].
Defined.

Lemma never_raises_witness :
  ∃ fl w',
    ProcessOrder.handler sample_topic
      (batch [stream_entry "INSERT" (Some "111") "order-123" "NEW";
              stream_entry "REMOVE" (Some "112") "order-123" "PROCESSED"])
      PNone world_with_order =
      (Ret (PDict [("batchItemFailures", PList fl)]), w') ∧
    fl = [].
Proof.
  destruct (never_raises sample_topic
              (batch [stream_entry "INSERT" (Some "111") "order-123" "NEW";
                      stream_entry "REMOVE" (Some "112") "order-123" "PROCESSED"])
              PNone
              [stream_entry "INSERT" (Some "111") "order-123" "NEW";
               stream_entry "REMOVE" (Some "112") "order-123" "PROCESSED"]
              world_with_order)
    as (fl & w' & Hrun & _ & Hempty).
  - reflexivity.
  - exists fl, w'. split; [exact Hrun|]. apply Hempty. vm_compute. exact I.
Defined.

Lemma irrelevant_entry_noop_witness :
  ProcessOrder.handler sample_topic
    (batch [stream_entry "REMOVE" (Some "333") "order-123" "NEW"]) PNone world_with_order =
  (Ret (PDict [("batchItemFailures", PList [])]), world_with_order).
Proof.
  destruct (irrelevant_entry_noop sample_topic
              (stream_entry "REMOVE" (Some "333") "order-123" "NEW")) as [_ Hsame].
  - reflexivity.
  - rewrite (Hsame [] [] _ (batch []) PNone world_with_order); reflexivity.
Defined.

Lemma failure_isolated_witness :
  ∃ w3,
    ProcessOrder.handler sample_topic
      (batch [stream_entry "INSERT" (Some "111") "order-success" "NEW";
              stream_entry "INSERT" (Some "222") "order-fail" "NEW"])
      PNone
      (with_faults [None; None; Some (ServiceFault "ServiceUnavailable")]
         (take_in "order-fail" (take_in "order-success" empty_world))) =
    (Ret (PDict [("batchItemFailures", PList [PDict [("itemIdentifier", PStr "222")]])]), w3).
Proof.
  edestruct (failure_isolated sample_topic
               [stream_entry "INSERT" (Some "111") "order-success" "NEW"]
               (stream_entry "INSERT" (Some "222") "order-fail" "NEW") []
               (batch [stream_entry "INSERT" (Some "111") "order-success" "NEW";
                       stream_entry "INSERT" (Some "222") "order-fail" "NEW"])
               PNone
               (with_faults [None; None; Some (ServiceFault "ServiceUnavailable")]
                  (take_in "order-fail" (take_in "order-success" empty_world))))
    as (fl3 & w3 & Hpost & Hrun & _).
  - reflexivity.
  - vm_compute. reflexivity.
  - vm_compute. reflexivity.
  - reflexivity.
  - reflexivity.
  - exists w3. injection Hpost as <- _. exact Hrun.
Defined.

Lemma falsy_sequence_number_omitted_witness :
  ∃ w3,
    ProcessOrder.handler sample_topic
      (batch [stream_entry "INSERT" None "order-123" "NEW"]) PNone
      (with_faults [Some (ServiceFault "ServiceUnavailable")] world_with_order) =
    (Ret (PDict [("batchItemFailures", PList [])]), w3).
Proof.
  edestruct (falsy_sequence_number_omitted sample_topic []
               (stream_entry "INSERT" None "order-123" "NEW") []
               (batch [stream_entry "INSERT" None "order-123" "NEW"]) PNone
               (with_faults [Some (ServiceFault "ServiceUnavailable")] world_with_order))
    as (fl3 & w3 & Hpost & Hrun & _).
  - reflexivity.
  - reflexivity.
  - vm_compute. reflexivity.
  - reflexivity.
  - reflexivity.
  - exists w3. injection Hpost as <- _. exact Hrun.
Defined.

Lemma lost_notification_witness :
  ∃ w1 rs w2,
    ProcessOrder.handler sample_topic
      (batch [stream_entry "INSERT" (Some "111") "order-123" "NEW"]) PNone
      (with_faults [None; Some (TransportFault "EndpointConnectionError")] world_with_order) =
    (Ret (PDict [("batchItemFailures", PList [PDict [("itemIdentifier", PStr "111")]])]), w1) ∧
    repeat_run 3
      (ProcessOrder.handler sample_topic
         (batch [stream_entry "INSERT" (Some "111") "order-123" "NEW"]) PNone) w1 =
    (Ret rs, w2) ∧
    publish_calls (trace w2) = publish_calls (trace w1).
Proof.
  destruct (lost_notification sample_topic
              (stream_entry "INSERT" (Some "111") "order-123" "NEW") "order-123" (PStr "111")
              (batch [stream_entry "INSERT" (Some "111") "order-123" "NEW"]) PNone
              (with_faults [None; Some (TransportFault "EndpointConnectionError")] world_with_order)
              (TransportFault "EndpointConnectionError") [] 3)
    as (it & w1 & _ & Hrun & _ & Htrace & _ & _ & rs & w2 & Hruns & _ & Hpub).
  - reflexivity.
  - reflexivity.
  - reflexivity.
  - reflexivity.
  - reflexivity.
  - reflexivity.
  - discriminate.
  - exists w1, rs, w2. split; [exact Hrun|]. split; [exact Hruns | exact Hpub].
Defined.

(** ** Two inputs outside the amended statements *)

(** C3 as stated fails: the update of an entry without a sequence number
    fails with ServiceUnavailable, and the returned failure list is empty. *)
Lemma unidentified_failure_not_recorded :
  ProcessOrder.sequence_number_of (stream_entry "INSERT" None "order-123" "NEW") = Ret PNone ∧
  (∃ w',
     ProcessOrder.process_record sample_topic (stream_entry "INSERT" None "order-123" "NEW")
       (with_faults [Some (ServiceFault "ServiceUnavailable")] world_with_order) =
     (Raise (ClientError "ServiceUnavailable"), w')) ∧
  (∃ w',
     ProcessOrder.handler sample_topic (batch [stream_entry "INSERT" None "order-123" "NEW"]) PNone
       (with_faults [Some (ServiceFault "ServiceUnavailable")] world_with_order) =
     (Ret (PDict [("batchItemFailures", PList [])]), w')).
Proof.
  split; [reflexivity|]. split; eexists; vm_compute; reflexivity.
Qed.

(** C6 as stated fails: the body [[]] decodes to a list, so the request has
    no orderId, and the answer is 500, not 400. *)
Lemma non_object_body_is_internal_error :
  request_field (PDict [("body", PStr "[]")]) "orderId" = None ∧
  CreateOrder.handler 7 (PDict [("body", PStr "[]")]) PNone empty_world =
    (Ret (PDict [("statusCode", PInt 500);
                 ("body", PStr (json_dumps (PDict [("error", PStr "Internal server error")])))]),
     empty_world).
Proof. split; reflexivity. Qed.

(** ** Worked examples for the further properties *)

Lemma undecodable_body_rejected_witness :
  CreateOrder.handler 7 (PDict [("body", PStr "not valid json {{{")]) PNone empty_world =
    (Ret (PDict [("statusCode", PInt 400);
                 ("body", PStr (json_dumps (PDict
                    [("error", PStr "Invalid JSON in request body")])))]), empty_world).
Proof.
  apply (undecodable_body_rejected 7 [("body", PStr "not valid json {{{")]
           "not valid json {{{" PNone empty_world); reflexivity.
Defined.

Lemma intake_never_overwrites_witness :
  table (snd (CreateOrder.handler 7
                (PDict [("orderId", PStr "order-123"); ("snackType", PStr "chocolate")])
                PNone world_with_order)) !! "order-123" =
  Some (stored (CreateOrder.order_item 7 (PStr "order-123") (PStr "crisps") (wall_clock 0))).
Proof.
  apply (intake_never_overwrites 7). vm_compute. reflexivity.
Defined.

Lemma existing_order_is_kept_witness :
  ∃ w',
    CreateOrder.handler 7
      (PDict [("orderId", PStr "order-123"); ("snackType", PStr "chocolate")])
      PNone world_processed =
      (Ret (PDict [("statusCode", PInt 200);
                   ("body", PStr (json_dumps (PDict
                      [("message", PStr "Order already exists");
                       ("orderId", PStr "order-123")])))]), w') ∧
    table w' = table world_processed.
Proof.
  destruct (existing_order_is_kept 7
               (PDict [("orderId", PStr "order-123"); ("snackType", PStr "chocolate")]) PNone
               [("orderId", PStr "order-123"); ("snackType", PStr "chocolate")]
               "order-123" "chocolate"
               (processed "2025-10-18T10:00:00+00:00"
                  (stored (CreateOrder.order_item 7 (PStr "order-123") (PStr "crisps")
                             (wall_clock 0))))
               world_processed)
    as (w' & Hrun & Htable & _).
  - repeat split; (reflexivity || discriminate).
  - vm_compute. reflexivity.
  - reflexivity.
  - exists w'. split; [exact Hrun | exact Htable].
Defined.

Lemma stored_record_fields_witness :
  ∃ w' it,
    CreateOrder.handler 7
      (PDict [("orderId", PStr "order-123"); ("snackType", PStr "crisps");
              ("note", PStr "leave at the door")]) PNone empty_world =
      (Ret (CreateOrder.created (PStr "order-123")), w') ∧
    table w' !! "order-123" = Some it ∧
    it !! "note" = None.
Proof.
  destruct (stored_record_fields 7
              (PDict [("orderId", PStr "order-123"); ("snackType", PStr "crisps");
                      ("note", PStr "leave at the door")]) PNone
              [("orderId", PStr "order-123"); ("snackType", PStr "crisps");
               ("note", PStr "leave at the door")]
              "order-123" "crisps" empty_world)
    as (w' & it & Hrun & Hit & Hdom & _).
  - repeat split; (reflexivity || discriminate).
  - reflexivity.
  - reflexivity.
  - exists w', it. split; [exact Hrun|]. split; [exact Hit|].
    apply not_elem_of_dom. rewrite Hdom.
    rewrite !not_elem_of_union, !not_elem_of_singleton. repeat split; discriminate.
Defined.

Lemma answer_depends_on_two_fields_witness :
  CreateOrder.handler 7
    (PDict [("orderId", PStr "order-123"); ("snackType", PStr "crisps");
            ("note", PStr "leave at the door")]) PNone empty_world =
  CreateOrder.handler 7 order_request (PStr "context") empty_world.
Proof.
  apply (answer_depends_on_two_fields 7 _ _ _ _
           [("orderId", PStr "order-123"); ("snackType", PStr "crisps");
            ("note", PStr "leave at the door")]
           [("orderId", PStr "order-123"); ("snackType", PStr "crisps")]); reflexivity.
Defined.

Lemma processed_record_is_final_witness :
  table (snd (ProcessOrder.handler sample_topic
                (batch [stream_entry "MODIFY" (Some "112") "order-123" "NEW"]) PNone
                world_processed)) !! "order-123" =
  Some (processed "2025-10-18T10:00:00+00:00"
          (stored (CreateOrder.order_item 7 (PStr "order-123") (PStr "crisps") (wall_clock 0)))).
Proof.
  apply (processed_record_is_final sample_topic).
  - vm_compute. reflexivity.
  - vm_compute. reflexivity.
Defined.

Lemma failures_follow_batch_witness :
  ∃ fl w',
    ProcessOrder.handler sample_topic
      (batch [stream_entry "INSERT" (Some "111") "order-123" "NEW";
              stream_entry "INSERT" (Some "222") "order-456" "NEW"]) PNone
      (with_faults [None; None; Some (TransportFault "ReadTimeoutError")] world_with_order) =
      (Ret (PDict [("batchItemFailures", PList fl)]), w') ∧
    (length fl ≤ 2)%nat.
Proof.
  destruct (failures_follow_batch sample_topic
              (batch [stream_entry "INSERT" (Some "111") "order-123" "NEW";
                      stream_entry "INSERT" (Some "222") "order-456" "NEW"]) PNone
              [stream_entry "INSERT" (Some "111") "order-123" "NEW";
               stream_entry "INSERT" (Some "222") "order-456" "NEW"]
              (with_faults [None; None; Some (TransportFault "ReadTimeoutError")]
                 world_with_order))
    as (fl & w' & Hrun & _ & Hlen).
  - reflexivity.
  - exists fl, w'. split; [exact Hrun | exact Hlen].
Defined.

Lemma malformed_record_raises_witness :
  ∃ w1,
    ProcessOrder.handler sample_topic
      (batch [stream_entry "INSERT" (Some "111") "order-123" "NEW";
              PDict [("eventName", PStr "INSERT"); ("dynamodb", PNone)];
              stream_entry "INSERT" (Some "113") "order-456" "NEW"]) PNone world_with_order =
    (Raise AttributeError, w1).
Proof.
  destruct (malformed_record_raises sample_topic
              (batch [stream_entry "INSERT" (Some "111") "order-123" "NEW";
                      PDict [("eventName", PStr "INSERT"); ("dynamodb", PNone)];
                      stream_entry "INSERT" (Some "113") "order-456" "NEW"]) PNone
              [stream_entry "INSERT" (Some "111") "order-123" "NEW"]
              (PDict [("eventName", PStr "INSERT"); ("dynamodb", PNone)])
              [stream_entry "INSERT" (Some "113") "order-456" "NEW"]
              world_with_order)
    as (fl1 & w1 & _ & Hrun).
  - reflexivity.
  - reflexivity.
  - reflexivity.
  - exists w1. exact Hrun.
Defined.

Lemma publish_conditional_failure_not_reported_witness :
  ∃ w1,
    ProcessOrder.handler sample_topic
      (batch [stream_entry "INSERT" (Some "111") "order-123" "NEW"]) PNone
      (with_faults [None; Some (ServiceFault ConditionalCheckFailed)] world_with_order) =
    (Ret (PDict [("batchItemFailures", PList [])]), w1).
Proof.
  destruct (publish_conditional_failure_not_reported sample_topic
              (stream_entry "INSERT" (Some "111") "order-123" "NEW") "order-123"
              (batch [stream_entry "INSERT" (Some "111") "order-123" "NEW"]) PNone
              (with_faults [None; Some (ServiceFault ConditionalCheckFailed)] world_with_order)
              [])
    as (it & w1 & _ & Hrun & _).
  - reflexivity.
  - reflexivity.
  - reflexivity.
  - reflexivity.
  - exists w1. exact Hrun.
Defined.

Lemma entry_for_unavailable_order_witness :
  ∃ w1,
    ProcessOrder.handler sample_topic
      (batch [stream_entry "INSERT" (Some "111") "order-123" "NEW"]) PNone empty_world =
    (Ret (PDict [("batchItemFailures", PList [])]), w1) ∧
    table w1 = ∅.
Proof.
  destruct (entry_for_unavailable_order sample_topic
              (stream_entry "INSERT" (Some "111") "order-123" "NEW") "order-123"
              (batch [stream_entry "INSERT" (Some "111") "order-123" "NEW"]) PNone empty_world)
    as (w1 & Hrun & Htable & _).
  - reflexivity.
  - reflexivity.
  - reflexivity.
  - reflexivity.
  - exists w1. split; [exact Hrun | exact Htable].
Defined.

Lemma order_is_created_then_processed_witness :
  ∃ w1 w2,
    CreateOrder.handler 7 order_request PNone empty_world =
      (Ret (CreateOrder.created (PStr "order-123")), w1) ∧
    ProcessOrder.handler sample_topic
      (batch [stream_entry "INSERT" (Some "111") "order-123" "NEW"]) PNone w1 =
      (Ret (PDict [("batchItemFailures", PList [])]), w2) ∧
    length (trace w2) = 3%nat.
Proof.
  destruct (order_is_created_then_processed 7 sample_topic order_request PNone
              [("orderId", PStr "order-123"); ("snackType", PStr "crisps")]
              "order-123" "crisps"
              (stream_entry "INSERT" (Some "111") "order-123" "NEW")
              (batch [stream_entry "INSERT" (Some "111") "order-123" "NEW"]) PNone empty_world)
    as (w1 & w2 & Hrun1 & Hrun2 & _ & Htrace).
  - repeat split; (reflexivity || discriminate).
  - reflexivity.
  - reflexivity.
  - reflexivity.
  - reflexivity.
  - exists w1, w2. split; [exact Hrun1|]. split; [exact Hrun2|]. by rewrite Htrace.
Defined.

Lemma duplicates_in_batch_publish_once_witness :
  ∃ w',
    ProcessOrder.handler sample_topic
      (batch [stream_entry "INSERT" (Some "111") "order-123" "NEW";
              stream_entry "INSERT" (Some "111") "order-123" "NEW";
              stream_entry "INSERT" (Some "111") "order-123" "NEW"]) PNone world_with_order =
      (Ret (PDict [("batchItemFailures", PList [])]), w') ∧
    length (publish_calls (trace w')) = 1%nat.
Proof.
  destruct (duplicates_in_batch_publish_once sample_topic
              (stream_entry "INSERT" (Some "111") "order-123" "NEW") "order-123" 2
              (batch [stream_entry "INSERT" (Some "111") "order-123" "NEW";
                      stream_entry "INSERT" (Some "111") "order-123" "NEW";
                      stream_entry "INSERT" (Some "111") "order-123" "NEW"]) PNone
              world_with_order)
    as (it & w' & _ & Hrun & _ & Hpub).
  - reflexivity.
  - reflexivity.
  - reflexivity.
  - reflexivity.
  - exists w'. split; [exact Hrun|]. by rewrite Hpub.
Defined.
